(** * Attendance front end: filtering, pagination, ingest, summary, cache
      and the bulk-marking controller

    A shallow embedding of the data-fetch-and-presentation logic of the
    attendance management front end:

    - [AttendancePage]   (src/vite.config.js, second document): search filter
      and pagination of the employee list;
    - [Dashboard]        (EmployeeAttendanceDashboard.jsx): ingest
      normalisation, search/status filter and summary counts;
    - [Bulk]             (BulkAttendancePage.jsx): roster cache, search filter,
      selection set and the optimistic bulk-marking handler.

    Modelling conventions.  JSON payloads are taken at the types of the data
    model (an id is an integer, a name is a string); a field that may be
    absent is an [option]; the ingest of untyped JSON, which can throw, is
    in [Ingest].  Integers stand for JavaScript numbers in the range where
    these are exact and print as plain decimal numerals
    ([Search.safeInteger]).  Strings are sequences of character codes;
    [JsString.toLowerCase] is the built-in on the ASCII letters, and
    [Search] gives the search filters over the built-in as a parameter.  A
    [Set] of ids is a finite set; [JsSet] keeps the insertion order where
    it matters.  React state is a record
    and every state setter takes effect at once; an asynchronous handler is
    split at its single [await] into the part that runs up to the request
    and the continuation that runs when the request settles. *)

From Stdlib Require Import ZArith List Bool Ascii String Lia DecimalString.
From stdpp Require Import gmap strings list.

Open Scope string_scope.
Open Scope list_scope.
Open Scope Z_scope.

(** ** JavaScript strings *)

Module JsString.

(** [c] is one of 'A'..'Z'. *)
Definition isUpper (c : ascii) : bool :=
  let n := nat_of_ascii c in (65 <=? n)%nat && (n <=? 90)%nat.

(** [c] is one of 'a'..'z'. *)
Definition isLower (c : ascii) : bool :=
  let n := nat_of_ascii c in (97 <=? n)%nat && (n <=? 122)%nat.

Definition isLetter (c : ascii) : bool := isUpper c || isLower c.

Definition toLowerChar (c : ascii) : ascii :=
  if isUpper c then ascii_of_nat (nat_of_ascii c + 32) else c.

(** [s.toLowerCase()], as it acts on the ASCII letters. *)
Fixpoint toLowerCase (s : string) : string :=
  match s with
  | EmptyString => EmptyString
  | String c r => String (toLowerChar c) (toLowerCase r)
  end.

(** [s.includes(t)]: [t] occurs in [s] as a contiguous substring. *)
Fixpoint includes (s t : string) : bool :=
  String.prefix t s ||
  match s with
  | EmptyString => false
  | String _ r => includes r t
  end.

(** [n.toString()] and [String(n)] for an integer [n]: the decimal numeral,
    with a leading minus sign for a negative number.  This is what
    JavaScript prints for a safe integer ([Search.safeInteger]); from 10^21
    on it prints an exponent form, which is not modelled. *)
Definition Number_toString (n : Z) : string :=
  NilEmpty.string_of_int (Z.to_int n).

(** Truthiness of a string value that may be absent: [undefined], [null]
    and the empty string are falsy. *)
Definition truthy (o : option string) : bool :=
  match o with
  | Some s => negb (String.eqb s "")
  | None => false
  end.

(** [a || b] where [b] is a string. *)
Definition or_else (a : option string) (b : string) : string :=
  match a with
  | Some s => if String.eqb s "" then b else s
  | None => b
  end.

(** The term matches the field case-insensitively as a substring. *)
Definition matches_ci (field term : string) : Prop :=
  exists pre post : string,
    toLowerCase field = pre +:+ toLowerCase term +:+ post.

(** Every character of [s] satisfies [p]. *)
Fixpoint all_chars (p : ascii -> bool) (s : string) : bool :=
  match s with
  | EmptyString => true
  | String c r => p c && all_chars p r
  end.

End JsString.

(** ** Arrays *)

Module JsArray.

(** [l.slice(s, e)] with integer arguments: a negative index counts from the
    end, both indices are clamped to the array. *)
Definition slice {A : Type} (l : list A) (s e : Z) : list A :=
  let len := Z.of_nat (length l) in
  let k := if s <? 0 then Z.max (len + s) 0 else Z.min s len in
  let fin := if e <? 0 then Z.max (len + e) 0 else Z.min e len in
  take (Z.to_nat (fin - k)) (drop (Z.to_nat k) l).

(** [Math.ceil(n / p)] for integers [n] and [p]. *)
Definition ceil_div (n p : Z) : Z := - ((- n) / p).

End JsArray.

(** ** The employee entity *)

Record Employee := mkEmployee {
  id : Z;
  name : string;
  role : option string;
  profileImage : option string;
  lastStatus : option string
}.

(** ** AttendancePage: the employee list with search and pagination *)

Module AttendancePage.

Import JsString JsArray.

Definition employeesPerPage : Z := 10.

Record State := mkState {
  employees : list Employee;
  search : string;
  currentPage : Z
}.

(** The [filteredEmployees] memo: name or stringified id contains the
    lower-cased search text. *)
Definition filteredEmployees (employees : list Employee) (search : string)
  : list Employee :=
  List.filter
    (fun emp =>
       includes (toLowerCase (name emp)) (toLowerCase search) ||
       includes (Number_toString (id emp)) (toLowerCase search))
    employees.

(** The body of the [paginatedEmployees] memo, for a page size
    [employeesPerPage] and a 1-based [currentPage]. *)
Definition paginate {A : Type} (filteredEmployees : list A)
    (employeesPerPage currentPage : Z) : list A :=
  let indexOfLastEmployee := currentPage * employeesPerPage in
  let indexOfFirstEmployee := indexOfLastEmployee - employeesPerPage in
  slice filteredEmployees indexOfFirstEmployee indexOfLastEmployee.

Definition paginatedEmployees (st : State) : list Employee :=
  paginate (filteredEmployees (employees st) (search st))
           employeesPerPage (currentPage st).

(** [Math.ceil(filteredEmployees.length / employeesPerPage)], the page count
    shown next to the pager. *)
Definition pageCount {A : Type} (filteredEmployees : list A)
    (employeesPerPage : Z) : Z :=
  ceil_div (Z.of_nat (length filteredEmployees)) employeesPerPage.

(** All pages from the first to the last, in order. *)
Definition allPages {A : Type} (filteredEmployees : list A)
    (employeesPerPage : Z) : list (list A) :=
  List.map (fun k => paginate filteredEmployees employeesPerPage (Z.of_nat k))
           (seq 1 (Z.to_nat (pageCount filteredEmployees employeesPerPage))).

Definition handlePageChange (newPage : Z) (st : State) : State :=
  {| employees := employees st; search := search st; currentPage := newPage |}.

Definition handleSearchChange (value : string) (st : State) : State :=
  {| employees := employees st; search := value; currentPage := 1 |}.

End AttendancePage.

(** ** EmployeeAttendanceDashboard: ingest, filter and summary *)

Module Dashboard.

Import JsString.

(** One element of the array returned by [/attendance/all-today-status]
    whose fields have the types of the data model; every field may be
    absent.  Elements of any other shape are in [Ingest]. *)
Record RawEntry := mkRawEntry {
  raw_employeeId : option Z;
  raw_employeeName : option string;
  raw_status : option string;
  raw_attendanceStatus : option string;
  raw_currentDate : option string;
  raw_date : option string;
  raw_department : option string;
  raw_role : option string;
  raw_position : option string;
  raw_lastCheckIn : option string;
  raw_checkInTime : option string
}.

Record AttendanceRecord := mkAttendanceRecord {
  employeeId : Z;
  employeeName : string;
  status : string;
  date : string;
  department : string;
  position : string;
  lastCheckIn : option string
}.

(** [item.status || item.attendanceStatus || 'absent'] *)
Definition rawStatus (item : RawEntry) : string :=
  or_else (raw_status item) (or_else (raw_attendanceStatus item) "absent").

(** The function mapped over the response in [fetchAttendanceData];
    [nowISO] stands for [new Date().toISOString()]. *)
Definition processEntry (nowISO : string) (item : RawEntry) : AttendanceRecord :=
  {| employeeId :=
       match raw_employeeId item with
       | Some n => if n =? 0 then 0 else n
       | None => 0
       end;
     employeeName := or_else (raw_employeeName item) "Unknown";
     status :=
       if String.eqb (toLowerCase (rawStatus item)) "halfday"
       then "half-day"
       else toLowerCase (rawStatus item);
     date := or_else (raw_currentDate item) (or_else (raw_date item) nowISO);
     department := or_else (raw_department item) (or_else (raw_role item) "N/A");
     position := or_else (raw_position item) (or_else (raw_role item) "N/A");
     lastCheckIn :=
       if truthy (raw_lastCheckIn item) then raw_lastCheckIn item
       else if truthy (raw_checkInTime item) then raw_checkInTime item
       else None |}.

Definition processedData (nowISO : string) (data : list RawEntry)
  : list AttendanceRecord :=
  List.map (processEntry nowISO) data.

(** The search predicate of the [filteredData] memo, [term] being the
    lower-cased search text. *)
Definition searchMatch (term : string) (item : AttendanceRecord) : bool :=
  includes (toLowerCase (employeeName item)) term ||
  includes (Number_toString (employeeId item)) term ||
  includes (toLowerCase (department item)) term ||
  includes (toLowerCase (position item)) term.

Definition filteredData (attendanceData : list AttendanceRecord)
    (searchTerm statusFilter : string) : list AttendanceRecord :=
  let result := attendanceData in
  let result :=
    if negb (String.eqb searchTerm "")
    then List.filter (searchMatch (toLowerCase searchTerm)) result
    else result in
  let result :=
    if negb (String.eqb statusFilter "all")
    then List.filter (fun item => String.eqb (status item) statusFilter) result
    else result in
  result.

Record Summary := mkSummary {
  present : nat;
  absent : nat;
  halfDay : nat;
  total : nat
}.

Definition calculateSummary (data : list AttendanceRecord) : Summary :=
  let present :=
    length (List.filter (fun item => String.eqb (status item) "present") data) in
  let absent :=
    length (List.filter (fun item => String.eqb (status item) "absent") data) in
  let halfDay :=
    length (List.filter (fun item => String.eqb (status item) "half-day") data) in
  {| present := present; absent := absent; halfDay := halfDay;
     total := length data |}.

(** A record carries one of the three canonical statuses. *)
Definition canonical (item : AttendanceRecord) : bool :=
  String.eqb (status item) "present" ||
  String.eqb (status item) "absent" ||
  String.eqb (status item) "half-day".

End Dashboard.

(** ** BulkAttendancePage: roster cache, selection and bulk marking *)

Module Bulk.

Import JsString.

(** *** The module-level roster cache *)

Definition CACHE_DURATION : Z := 5 * 60 * 1000.

(** [employeeCache]: [data] and [timestamp] start as [null]. *)
Record Cache := mkCache {
  data : option (list Employee);
  timestamp : option Z
}.

Definition emptyCache : Cache := {| data := None; timestamp := None |}.

(** A [null] timestamp counts as 0 in [now - employeeCache.timestamp]. *)
Definition toNumber (t : option Z) : Z :=
  match t with
  | Some n => n
  | None => 0
  end.

(** The guard [employeeCache.data && now - employeeCache.timestamp <
    employeeCache.CACHE_DURATION] of [fetchEmployees], returning the roster
    it lets through (an array is truthy even when it is empty). *)
Definition cacheGet (cache : Cache) (now : Z) : option (list Employee) :=
  match data cache with
  | Some d => if now - toNumber (timestamp cache) <? CACHE_DURATION
              then Some d else None
  | None => None
  end.

(** [employeeCache.data = data; employeeCache.timestamp = now] *)
Definition cacheSet (d : list Employee) (now : Z) : Cache :=
  {| data := Some d; timestamp := Some now |}.

(** *** Component state and effects *)

Record State := mkState {
  employees : list Employee;
  search : string;
  selectedStatus : string;
  selectedEmployees : gset Z;
  isLoading : bool;
  isMarking : bool;
  showDateWarning : bool;
  selectedDate : string
}.

(** The values passed to [useState] on the first render; [today] is the
    result of [getCurrentDate()]. *)
Definition initialState (today : string) : State :=
  {| employees := [];
     search := "";
     selectedStatus := "";
     selectedEmployees := ∅;
     isLoading := true;
     isMarking := false;
     showDateWarning := false;
     selectedDate := today |}.

(** The JSON body of [POST /bulk-attendance/mark]. *)
Record MarkRequest := mkMarkRequest {
  req_employeeIds : list Z;
  req_status : string;
  req_date : string
}.

Inductive Effect : Type :=
| Toast (type : string) (message : option string)
| ConsoleError
| GetEmployees
| PostBulkMark (body : MarkRequest).

(** How the awaited [fetch] of [markBulkAttendance] settles. *)
Inductive ErrorBody : Type :=
| Parsed (message : option string)
| Unparsable (errorMessage : string).

Inductive Outcome : Type :=
| ResponseOk
| ResponseNotOk (body : ErrorBody)
| FetchRejected (errorMessage : string).

(** The variables captured by the continuation of [markBulkAttendance]
    after its [await]. *)
Record Pending := mkPending {
  prevEmployees : list Employee;
  employeeIds : list Z;
  status : string
}.

Definition set_employees (v : list Employee) (st : State) : State :=
  {| employees := v; search := search st;
     selectedStatus := selectedStatus st;
     selectedEmployees := selectedEmployees st;
     isLoading := isLoading st; isMarking := isMarking st;
     showDateWarning := showDateWarning st;
     selectedDate := selectedDate st |}.

Definition set_search (v : string) (st : State) : State :=
  {| employees := employees st; search := v;
     selectedStatus := selectedStatus st;
     selectedEmployees := selectedEmployees st;
     isLoading := isLoading st; isMarking := isMarking st;
     showDateWarning := showDateWarning st;
     selectedDate := selectedDate st |}.

Definition set_selectedStatus (v : string) (st : State) : State :=
  {| employees := employees st; search := search st;
     selectedStatus := v;
     selectedEmployees := selectedEmployees st;
     isLoading := isLoading st; isMarking := isMarking st;
     showDateWarning := showDateWarning st;
     selectedDate := selectedDate st |}.

Definition set_selectedEmployees (v : gset Z) (st : State) : State :=
  {| employees := employees st; search := search st;
     selectedStatus := selectedStatus st;
     selectedEmployees := v;
     isLoading := isLoading st; isMarking := isMarking st;
     showDateWarning := showDateWarning st;
     selectedDate := selectedDate st |}.

Definition set_isLoading (v : bool) (st : State) : State :=
  {| employees := employees st; search := search st;
     selectedStatus := selectedStatus st;
     selectedEmployees := selectedEmployees st;
     isLoading := v; isMarking := isMarking st;
     showDateWarning := showDateWarning st;
     selectedDate := selectedDate st |}.

Definition set_isMarking (v : bool) (st : State) : State :=
  {| employees := employees st; search := search st;
     selectedStatus := selectedStatus st;
     selectedEmployees := selectedEmployees st;
     isLoading := isLoading st; isMarking := v;
     showDateWarning := showDateWarning st;
     selectedDate := selectedDate st |}.

Definition set_showDateWarning (v : bool) (st : State) : State :=
  {| employees := employees st; search := search st;
     selectedStatus := selectedStatus st;
     selectedEmployees := selectedEmployees st;
     isLoading := isLoading st; isMarking := isMarking st;
     showDateWarning := v;
     selectedDate := selectedDate st |}.

Definition set_selectedDate (v : string) (st : State) : State :=
  {| employees := employees st; search := search st;
     selectedStatus := selectedStatus st;
     selectedEmployees := selectedEmployees st;
     isLoading := isLoading st; isMarking := isMarking st;
     showDateWarning := showDateWarning st;
     selectedDate := v |}.

(** *** Derived values *)

(** The [isDateValid] memo: [selectedDate <= today], the comparison of two
    strings by their code units; [today] is the date read when the memo was
    computed. *)
Definition isDateValid (today : string) (st : State) : bool :=
  String.leb (selectedDate st) today.

(** The [filteredEmployees] memo. *)
Definition filteredEmployees (employees : list Employee) (search : string)
  : list Employee :=
  if String.eqb search "" then employees
  else
    let searchLower := toLowerCase search in
    List.filter
      (fun emp =>
         includes (toLowerCase (name emp)) searchLower ||
         includes (Number_toString (id emp)) search)
      employees.

Definition selectedCount (st : State) : nat := size (selectedEmployees st).

(** The [disabled] prop of the Mark Attendance button. *)
Definition markButtonDisabled (today : string) (st : State) : bool :=
  String.eqb (selectedStatus st) "" ||
  (selectedCount st =? 0)%nat ||
  isMarking st ||
  negb (isDateValid today st).

(** *** Handlers

    A handler maps the state to the new state and the effects it performs.
    [today] is the value of [getCurrentDate()]. *)

Definition showDateWarningNotification (st : State) : State * list Effect :=
  (set_showDateWarning true st,
   [Toast "error"
      (Some "Cannot mark attendance for future dates. Please select today or a past date.")]).

Definition handleEmployeeSelect (employeeId : Z) (st : State) : State :=
  let prev := selectedEmployees st in
  set_selectedEmployees
    (if decide (employeeId ∈ prev) then prev ∖ {[employeeId]}
     else prev ∪ {[employeeId]})
    st.

Definition handleSelectAll (checked : bool) (st : State) : State :=
  if checked
  then set_selectedEmployees
         (list_to_set
            (List.map (fun emp => id emp)
                      (filteredEmployees (employees st) (search st))))
         st
  else set_selectedEmployees ∅ st.

Definition handleDateChange (today newDate : string) (st : State)
  : State * list Effect :=
  let st := set_selectedDate newDate st in
  if String.ltb today newDate then showDateWarningNotification st
  else (st, []).

(** The optimistic update [{ ...emp, lastStatus: selectedStatus }]. *)
Definition withLastStatus (v : string) (emp : Employee) : Employee :=
  {| id := id emp; name := name emp; role := role emp;
     profileImage := profileImage emp; lastStatus := Some v |}.

Definition optimistic (selected : gset Z) (v : string) (prev : list Employee)
  : list Employee :=
  List.map
    (fun emp => if decide (id emp ∈ selected) then withLastStatus v emp else emp)
    prev.

(** [successMessages[selectedStatus]] for [n] marked employees; a key that
    is not in the table yields [undefined]. *)
Definition successMessages (n : nat) (selectedStatus : string) : option string :=
  let count := Number_toString (Z.of_nat n) in
  if String.eqb selectedStatus "present"
  then Some ("Successfully marked " +:+ count +:+ " employees as Present")
  else if String.eqb selectedStatus "absent"
  then Some ("Marked " +:+ count +:+ " employees as Absent")
  else if String.eqb selectedStatus "halfday"
  then Some ("Marked " +:+ count +:+ " employees as Half Day")
  else None.

(** [markBulkAttendance] up to its [await fetch(...)]: the three validation
    returns, then the optimistic update and the request.  The third
    component is the continuation's closure when a request was issued.  The
    ids of the request are the selected ids; the code sends them in the
    order in which they were ticked ([JsSet]), which the set does not
    keep. *)
Definition markBulkAttendance_start (today : string) (st : State)
  : State * list Effect * option Pending :=
  if String.eqb (selectedStatus st) ""
  then (st, [Toast "error" (Some "Please select attendance status")], None)
  else if (size (selectedEmployees st) =? 0)%nat
  then (st, [Toast "error" (Some "Please select at least one employee")], None)
  else if negb (isDateValid today st)
  then let '(st', effs) := showDateWarningNotification st in (st', effs, None)
  else
    let st1 := set_isMarking true st in
    let employeeIds := elements (selectedEmployees st) in
    let prevEmployees := employees st in
    let st2 :=
      set_employees
        (optimistic (selectedEmployees st) (selectedStatus st) (employees st1))
        st1 in
    (st2,
     [PostBulkMark {| req_employeeIds := employeeIds;
                      req_status := selectedStatus st;
                      req_date := selectedDate st |}],
     Some {| prevEmployees := prevEmployees;
             employeeIds := employeeIds;
             status := selectedStatus st |}).

(** [error.message || fallback] *)
Definition messageOr (message fallback : string) : string :=
  if String.eqb message "" then fallback else message.

(** The continuation of [markBulkAttendance] once the request has settled,
    with its [catch] and [finally] blocks. *)
Definition markBulkAttendance_settle (p : Pending) (o : Outcome) (st : State)
  : State * list Effect :=
  match o with
  | ResponseOk =>
      let st := set_selectedEmployees ∅ st in
      (set_isMarking false st,
       [Toast "success" (successMessages (length (employeeIds p)) (status p))])
  | ResponseNotOk body =>
      let st := set_employees (prevEmployees p) st in
      let thrown :=
        match body with
        | Parsed message => or_else message "Failed to mark attendance"
        | Unparsable errorMessage => errorMessage
        end in
      (set_isMarking false st,
       [Toast "error"
          (Some (messageOr thrown "Failed to mark attendance. Please try again."))])
  | FetchRejected errorMessage =>
      (set_isMarking false st,
       [Toast "error"
          (Some (messageOr errorMessage
                   "Failed to mark attendance. Please try again."))])
  end.

(** A whole call of [markBulkAttendance] whose request, if one is issued,
    settles as [o] before any other event. *)
Definition markBulkAttendance (today : string) (o : Outcome) (st : State)
  : State * list Effect :=
  match markBulkAttendance_start today st with
  | (st1, effs, Some p) =>
      let '(st2, effs') := markBulkAttendance_settle p o st1 in
      (st2, effs ++ effs')
  | (st1, effs, None) => (st1, effs)
  end.

(** *** Loading the roster *)

Inductive FetchResult : Type :=
| FetchOk (d : list Employee)
| FetchFailed.

(** [fetchEmployees] up to its [await fetch(...)]: a fresh cache entry is
    served without a request. *)
Definition fetchEmployees_start (now : Z) (cache : Cache) (st : State)
  : State * list Effect :=
  let st := set_isLoading true st in
  match cacheGet cache now with
  | Some d => (set_isLoading false (set_employees d st), [])
  | None => (st, [GetEmployees])
  end.

(** The continuation of [fetchEmployees]; [now] is the instant read before
    the request was sent. *)
Definition fetchEmployees_settle (now : Z) (r : FetchResult) (cache : Cache)
    (st : State) : Cache * State * list Effect :=
  match r with
  | FetchOk d =>
      (cacheSet d now, set_isLoading false (set_employees d st), [])
  | FetchFailed =>
      let st :=
        match data cache with
        | Some d => set_employees d st
        | None => st
        end in
      (cache, set_isLoading false st,
       [ConsoleError;
        Toast "error" (Some "Failed to load employees. Please try again later.")])
  end.

(** *** The page as an event-driven system *)

Inductive Event : Type :=
| SearchInput (value : string)
| StatusInput (value : string)
| DateInput (value : string)
| EmployeeToggle (employeeId : Z)
| SelectAllToggle (checked : bool)
| MarkClick
| MarkSettled (o : Outcome)
| RosterLoaded (d : list Employee)
| WarningTimeout
| Remount
| OrphanSettled (o : Outcome).

(** The rendered component together with the bulk-mark requests that have
    not settled yet, oldest first: [inFlight] holds those sent by the
    component as it is mounted now, [orphaned] those sent by an earlier
    mount of the page.  A request is never aborted, so leaving the page (its
    navigation buttons stay enabled while a submission is in flight) and
    coming back leaves the request pending while the state starts afresh. *)
Record Page := mkPage {
  view : State;
  inFlight : list Pending;
  orphaned : list Pending
}.

Definition initialPage (today : string) : Page :=
  {| view := initialState today; inFlight := []; orphaned := [] |}.

(** One user or network event.  A click on a disabled button does not call
    its [onClick] handler.  [MarkSettled] settles the oldest request in
    flight.  [Remount] is the page being left and entered again: every
    [useState] starts from its initial value.  [OrphanSettled] settles the
    oldest request of an earlier mount: its continuation addresses the
    state of the component that is gone and leaves the mounted one as it is.
    The component renders its controls only once the roster has loaded; the
    model accepts every event in every state, which only adds behaviours. *)
Definition step (today : string) (ev : Event) (pg : Page) : Page :=
  let st := view pg in
  let keep st' :=
    {| view := st'; inFlight := inFlight pg; orphaned := orphaned pg |} in
  match ev with
  | SearchInput value => keep (set_search value st)
  | StatusInput value => keep (set_selectedStatus value st)
  | DateInput value => keep (fst (handleDateChange today value st))
  | EmployeeToggle employeeId => keep (handleEmployeeSelect employeeId st)
  | SelectAllToggle checked => keep (handleSelectAll checked st)
  | MarkClick =>
      if markButtonDisabled today st then pg
      else
        match markBulkAttendance_start today st with
        | (st', _, Some p) =>
            {| view := st'; inFlight := inFlight pg ++ [p];
               orphaned := orphaned pg |}
        | (st', _, None) => keep st'
        end
  | MarkSettled o =>
      match inFlight pg with
      | p :: rest =>
          {| view := fst (markBulkAttendance_settle p o st); inFlight := rest;
             orphaned := orphaned pg |}
      | [] => pg
      end
  | RosterLoaded d => keep (set_isLoading false (set_employees d st))
  | WarningTimeout => keep (set_showDateWarning false st)
  | Remount =>
      {| view := initialState today; inFlight := [];
         orphaned := orphaned pg ++ inFlight pg |}
  | OrphanSettled o =>
      {| view := st; inFlight := inFlight pg; orphaned := tail (orphaned pg) |}
  end.

Definition run (today : string) (evs : list Event) (pg : Page) : Page :=
  fold_left (fun pg ev => step today ev pg) evs pg.

(** The invariant of the page: while nothing is being marked the mounted
    component has no request in flight, and it never has more than one. *)
Definition quiet (pg : Page) : Prop :=
  (isMarking (view pg) = false -> inFlight pg = []) /\
  (length (inFlight pg) <= 1)%nat.

(** All bulk-mark requests that are pending, whichever mount sent them. *)
Definition pending (pg : Page) : list Pending := orphaned pg ++ inFlight pg.

End Bulk.

(** ** AttendancePage: the pager and the company label *)

Module Pager.

Import JsArray AttendancePage.

Definition filtered (st : State) : list Employee :=
  filteredEmployees (employees st) (search st).

(** The pager is rendered when the filtered list is longer than one page
    (and the page is neither loading nor showing an error, which the model
    leaves out: it only adds behaviours). *)
Definition pagerShown (st : State) : bool :=
  Z.of_nat (length (filtered st)) >? employeesPerPage.

(** The [disabled] props of the Prev and Next buttons. *)
Definition prevDisabled (st : State) : bool := currentPage st =? 1.

Definition nextDisabled (st : State) : bool :=
  currentPage st >=? pageCount (filtered st) employeesPerPage.

Inductive Event : Type :=
| SearchChange (value : string)
| PrevClick
| NextClick.

(** A click on a button that is not rendered or is disabled does nothing. *)
Definition step (ev : Event) (st : State) : State :=
  match ev with
  | SearchChange value => handleSearchChange value st
  | PrevClick =>
      if pagerShown st && negb (prevDisabled st)
      then handlePageChange (currentPage st - 1) st else st
  | NextClick =>
      if pagerShown st && negb (nextDisabled st)
      then handlePageChange (currentPage st + 1) st else st
  end.

Definition run (evs : list Event) (st : State) : State :=
  fold_left (fun st ev => step ev st) evs st.

(** [s.split(' ')] *)
Fixpoint split_space (s : string) : list string :=
  match s with
  | EmptyString => [EmptyString]
  | String c r =>
      if Ascii.eqb c " "%char then EmptyString :: split_space r
      else match split_space r with
           | w :: ws => String c w :: ws
           | [] => [String c EmptyString]
           end
  end.

(** [getAbbreviatedName] of the navigation bar, for a company name. *)
Definition getAbbreviatedName (COMPANY_NAME : string) : string :=
  let words := split_space COMPANY_NAME in
  if (2 <? length words)%nat
  then match words with
       | w0 :: w1 :: _ => w0 +:+ " " +:+ w1 +:+ "..."
       | _ => COMPANY_NAME
       end
  else COMPANY_NAME.

(** The number of spaces in a string. *)
Fixpoint spaces (s : string) : nat :=
  match s with
  | EmptyString => 0%nat
  | String c r => ((if Ascii.eqb c " "%char then 1 else 0) + spaces r)%nat
  end.

End Pager.

(** ** EmployeeAttendanceDashboard: chart data, table cells and exports *)

Module DashboardView.

Import JsString Dashboard.

(** The [statusCounts] object built by [reduce] for the pie chart, as a map
    from status to count.  (A status that names a property every object
    inherits, such as [constructor], is outside this model; the chart reads
    the three keys below only.) *)
Definition statusCounts (filteredData : list AttendanceRecord) : gmap string nat :=
  fold_left
    (fun acc item =>
       <[status item := (default 0%nat (acc !! status item) + 1)%nat]> acc)
    filteredData ∅.

(** [statusCounts.present || 0] and its two siblings. *)
Definition chartValue (filteredData : list AttendanceRecord) (key : string) : nat :=
  default 0%nat (statusCounts filteredData !! key).

(** The chart is set up only for a non-empty view. *)
Definition chartDrawn (filteredData : list AttendanceRecord) : bool :=
  (0 <? length filteredData)%nat.

Definition toUpperChar (c : ascii) : ascii :=
  if isLower c then ascii_of_nat (nat_of_ascii c - 32) else c.

(** [s.charAt(0).toUpperCase() + s.slice(1)] *)
Definition capitalize (s : string) : string :=
  match s with
  | EmptyString => EmptyString
  | String c r => String (toUpperChar c) r
  end.

(** [statusDisplay] of a table row. *)
Definition statusDisplay (item : AttendanceRecord) : string :=
  if String.eqb (status item) "half-day" then "Half Day"
  else capitalize (status item).

(** The colour classes of the status badge of a table row. *)
Definition statusBadge (item : AttendanceRecord) : string :=
  if String.eqb (status item) "present" then "bg-blue-100 text-blue-800"
  else if String.eqb (status item) "absent" then "bg-red-100 text-red-800"
  else "bg-yellow-100 text-yellow-800".

(** [formatTime], with the locale-dependent rendering of a time taken as
    [toLocaleTimeString]. *)
Definition formatTime (toLocaleTimeString : string -> string)
    (timeString : option string) : string :=
  if negb (truthy timeString) then "--"
  else match timeString with
       | Some t => toLocaleTimeString t
       | None => "--"
       end.

(** One body row of the PDF table. *)
Record PdfRow := mkPdfRow {
  pdf_id : Z;
  pdf_name : string;
  pdf_department : string;
  pdf_position : string;
  pdf_status : string;
  pdf_lastCheckIn : string
}.

Definition pdfRow (toLocaleTimeString : string -> string)
    (item : AttendanceRecord) : PdfRow :=
  {| pdf_id := employeeId item;
     pdf_name := employeeName item;
     pdf_department := department item;
     pdf_position := position item;
     pdf_status := capitalize (status item);
     pdf_lastCheckIn :=
       if truthy (lastCheckIn item)
       then formatTime toLocaleTimeString (lastCheckIn item)
       else "--" |}.

(** The fill and text colours [didParseCell] assigns to a cell, if any. *)
Definition didParseCell (columnIndex : Z) (raw : string)
  : option (list Z * list Z) :=
  if columnIndex =? 4 then
    let status := toLowerCase raw in
    if String.eqb status "present"
    then Some ([224; 242; 254], [3; 105; 161])
    else if String.eqb status "absent"
    then Some ([254; 226; 226], [185; 28; 28])
    else if includes status "half"
    then Some ([254; 243; 199], [146; 64; 14])
    else None
  else None.

(** The double quote and the line feed. *)
Definition dquote : ascii := "034"%char.
Definition newline : ascii := "010"%char.

(** The global [replace] of the CSV fields: every double quote is doubled. *)
Fixpoint doubleQuotes (s : string) : string :=
  match s with
  | EmptyString => EmptyString
  | String c r =>
      if Ascii.eqb c dquote then String dquote (String dquote (doubleQuotes r))
      else String c (doubleQuotes r)
  end.

(** The template that wraps an escaped field in double quotes. *)
Definition csvQuoted (s : string) : string :=
  String dquote (doubleQuotes s +:+ String dquote EmptyString).

(** [l.join(sep)] for an array of strings. *)
Fixpoint join (sep : string) (l : list string) : string :=
  match l with
  | [] => EmptyString
  | [x] => x
  | x :: rest => x +:+ sep +:+ join sep rest
  end.

Definition csvHeaders : list string :=
  ["Employee ID"; "Name"; "Department"; "Position"; "Status"; "Last Check-In"].

Definition csvFields (toLocaleTimeString : string -> string)
    (item : AttendanceRecord) : list string :=
  [Number_toString (employeeId item);
   csvQuoted (employeeName item);
   csvQuoted (department item);
   csvQuoted (position item);
   status item;
   if truthy (lastCheckIn item)
   then formatTime toLocaleTimeString (lastCheckIn item)
   else "--"].

(** [csvContent] of [exportToCSV]. *)
Definition csvContent (toLocaleTimeString : string -> string)
    (filteredData : list AttendanceRecord) : string :=
  join (String newline EmptyString)
       (join "," csvHeaders
        :: List.map (fun item => join "," (csvFields toLocaleTimeString item))
                    filteredData).

(** The number of occurrences of a character in a string. *)
Fixpoint occurrences (c : ascii) (s : string) : nat :=
  match s with
  | EmptyString => 0%nat
  | String d r => ((if Ascii.eqb d c then 1 else 0) + occurrences c r)%nat
  end.

End DashboardView.

(** ** BulkAttendancePage: rendered cells and the whole roster load *)

Module BulkView.

Import JsString Bulk.

(** The [checked] prop of the select-all box in the table header. *)
Definition selectAllChecked (st : State) : bool :=
  (selectedCount st
   =? length (filteredEmployees (employees st) (search st)))%nat &&
  (0 <? length (filteredEmployees (employees st) (search st)))%nat.

(** The text of the status cell of an employee's row. *)
Definition statusCell (st : State) (emp : Employee) : string :=
  if negb (String.eqb (selectedStatus st) "") &&
     bool_decide (id emp ∈ selectedEmployees st)
  then selectedStatus st
  else if truthy (lastStatus emp)
       then match lastStatus emp with
            | Some v => v
            | None => "-"
            end
       else "-".

(** A whole run of [fetchEmployees] at instant [now], the request, if one
    is sent, settling as [r]. *)
Definition fetchEmployees (now : Z) (r : FetchResult) (cache : Cache)
    (st : State) : Cache * State * list Effect :=
  let '(st1, effs) := fetchEmployees_start now cache st in
  match cacheGet cache now with
  | Some _ => (cache, st1, effs)
  | None =>
      let '(cache', st2, effs') := fetchEmployees_settle now r cache st1 in
      (cache', st2, effs ++ effs')
  end.

End BulkView.

(** ** AddEmployee: the retrying request and the clock *)

Module AddEmployee.

Import JsString.

Record JsError := mkJsError {
  error_name : string;
  error_message : string
}.

(** What one pass through the [try] block of [fetchWithRetry] meets: an
    exception ([fetch] rejecting, with an [AbortError] when the timer fires,
    or the body of the response failing to parse), a response that is not
    ok together with the message of its body if it has one, or a response
    that is ok with its parsed body. *)
Inductive Attempt (D : Type) : Type :=
| Thrown (e : JsError)
| NotOk (status : Z) (message : option string)
| OkBody (data : D).

Arguments Thrown {D} e.
Arguments NotOk {D} status message.
Arguments OkBody {D} data.

Inductive Result (D : Type) : Type :=
| Returned (data : D)
| Threw (lastError : option JsError).

Arguments Returned {D} data.
Arguments Threw {D} lastError.

Inductive Effect : Type :=
| SetRetryCount (n : Z)
| Fetch (timeout : Z)
| Sleep (ms : Z).

(** The error caught by the [catch] block for a failed attempt. *)
Definition errorOf {D : Type} (a : Attempt D) : JsError :=
  match a with
  | Thrown e => e
  | NotOk status message =>
      {| error_name := "Error";
         error_message :=
           or_else message
                   ("HTTP error! status: " +:+ Number_toString status) |}
  | OkBody _ => {| error_name := ""; error_message := "" |}
  end.

(** The [for] loop of [fetchWithRetry] from index [i] on; [fuel] is the
    number of iterations left, [attempt i] is what iteration [i] meets. *)
Fixpoint retryLoop {D : Type} (attempt : Z -> Attempt D) (retries timeout : Z)
    (fuel : nat) (i : Z) (lastError : option JsError)
  : Result D * list Effect :=
  match fuel with
  | O => (Threw lastError, [])
  | S fuel' =>
      let pre := [SetRetryCount (i + 1); Fetch timeout] in
      match attempt i with
      | OkBody data => (Returned data, pre)
      | a =>
          let error := errorOf a in
          if negb (String.eqb (error_name error) "AbortError") &&
             (i =? retries - 1)
          then (Threw (Some error), pre)
          else
            let wait :=
              if i <? retries - 1 then [Sleep (1000 * (i + 1))] else [] in
            let '(r, effs) :=
              retryLoop attempt retries timeout fuel' (i + 1) (Some error) in
            (r, pre ++ wait ++ effs)
      end
  end.

(** [fetchWithRetry(url, options, retries, timeout)]; the defaults are 3
    attempts and 8000 ms. *)
Definition fetchWithRetry {D : Type} (attempt : Z -> Attempt D)
    (retries timeout : Z) : Result D * list Effect :=
  retryLoop attempt retries timeout (Z.to_nat retries) 0 None.

(** The requests sent and the pauses made, read off the effects. *)
Definition fetches (effs : list Effect) : nat :=
  length (List.filter (fun e => match e with Fetch _ => true | _ => false end)
                      effs).

Definition pauses (effs : list Effect) : list Z :=
  flat_map (fun e => match e with Sleep ms => [ms] | _ => [] end) effs.

(** An attempt that does not return a body. *)
Definition failed {D : Type} (a : Attempt D) : Prop :=
  match a with
  | OkBody _ => False
  | _ => True
  end.

(** [currentTime.getHours() % 12 || 12] *)
Definition clockHours (getHours : Z) : Z :=
  if Z.rem getHours 12 =? 0 then 12 else Z.rem getHours 12.

Definition ampm (getHours : Z) : string :=
  if getHours >=? 12 then "PM" else "AM".

End AddEmployee.

(** ** The search filters over the built-in case folding

    [String.prototype.toLowerCase] is a built-in: the three search filters
    are given here with it as a parameter.  The filters of the modules above
    are these filters at the folding of the ASCII letters. *)

Module Search.

Import JsString.

(** [Number.MAX_SAFE_INTEGER]: up to this magnitude an integer is a
    JavaScript number and prints as its plain decimal numeral. *)
Definition MAX_SAFE_INTEGER : Z := 2 ^ 53 - 1.

Definition safeInteger (n : Z) : Prop := Z.abs n <= MAX_SAFE_INTEGER.

(** One of '0'..'9'. *)
Definition isDigit (c : ascii) : bool :=
  let n := nat_of_ascii c in (48 <=? n)%nat && (n <=? 57)%nat.

(** A string of digits and minus signs. *)
Definition numeric (s : string) : bool :=
  all_chars (fun c => isDigit c || Ascii.eqb c "-"%char) s.

Section Folding.

Variable toLowerCase : string -> string.

(** The term matches the field as a substring once both are lower-cased. *)
Definition matches (field term : string) : Prop :=
  exists pre post : string,
    toLowerCase field = pre +:+ toLowerCase term +:+ post.

(** The [filteredData] memo of the dashboard. *)
Definition filteredData (attendanceData : list Dashboard.AttendanceRecord)
    (searchTerm statusFilter : string) : list Dashboard.AttendanceRecord :=
  let result := attendanceData in
  let result :=
    if negb (String.eqb searchTerm "")
    then
      let term := toLowerCase searchTerm in
      List.filter
        (fun item =>
           includes (toLowerCase (Dashboard.employeeName item)) term ||
           includes (Number_toString (Dashboard.employeeId item)) term ||
           includes (toLowerCase (Dashboard.department item)) term ||
           includes (toLowerCase (Dashboard.position item)) term)
        result
    else result in
  let result :=
    if negb (String.eqb statusFilter "all")
    then List.filter
           (fun item => String.eqb (Dashboard.status item) statusFilter) result
    else result in
  result.

(** The [filteredEmployees] memo of the bulk page. *)
Definition bulkFilteredEmployees (employees : list Employee) (search : string)
  : list Employee :=
  if String.eqb search "" then employees
  else
    let searchLower := toLowerCase search in
    List.filter
      (fun emp =>
         includes (toLowerCase (name emp)) searchLower ||
         includes (Number_toString (id emp)) search)
      employees.

(** The [filteredEmployees] memo of the attendance page. *)
Definition pageFilteredEmployees (employees : list Employee) (search : string)
  : list Employee :=
  List.filter
    (fun emp =>
       includes (toLowerCase (name emp)) (toLowerCase search) ||
       includes (Number_toString (id emp)) (toLowerCase search))
    employees.

End Folding.

End Search.

(** ** Ingest over untyped JSON

    The response of [/attendance/all-today-status] is whatever JSON the
    server sends.  Here an element of the array and its fields are untyped
    values, and the normalisation can throw, as it does in the code.  The
    typed [Dashboard.processEntry] is this normalisation on the entries
    whose fields have the types of the data model. *)

Module Ingest.

Import JsString.

(** A value read from a field.  [JOther] stands for every value that is
    none of the others: a number that is not an integer, an array, an
    object.  Such a value is truthy and has no [toLowerCase] method. *)
Inductive JsValue : Type :=
| JUndefined
| JNull
| JBool (b : bool)
| JNumber (n : Z)
| JString (s : string)
| JOther.

Definition truthy (v : JsValue) : bool :=
  match v with
  | JUndefined | JNull => false
  | JBool b => b
  | JNumber n => negb (n =? 0)
  | JString s => negb (String.eqb s "")
  | JOther => true
  end.

(** [a || b] *)
Definition or (a b : JsValue) : JsValue := if truthy a then a else b.

(** The fields the normalisation reads; a field that is not there is
    [JUndefined]. *)
Record RawObject := mkRawObject {
  o_employeeId : JsValue;
  o_employeeName : JsValue;
  o_status : JsValue;
  o_attendanceStatus : JsValue;
  o_currentDate : JsValue;
  o_date : JsValue;
  o_department : JsValue;
  o_role : JsValue;
  o_position : JsValue;
  o_lastCheckIn : JsValue;
  o_checkInTime : JsValue
}.

Definition emptyObject : RawObject :=
  mkRawObject JUndefined JUndefined JUndefined JUndefined JUndefined
              JUndefined JUndefined JUndefined JUndefined JUndefined
              JUndefined.

(** An element of the array: [null], an object, or a value on which every
    one of these property reads yields [undefined] (a string, a number, a
    boolean, an array). *)
Inductive RawItem : Type :=
| ItemNull
| ItemObject (o : RawObject)
| ItemPlain.

Record Processed := mkProcessed {
  employeeId : JsValue;
  employeeName : JsValue;
  status : string;
  date : JsValue;
  department : JsValue;
  position : JsValue;
  lastCheckIn : JsValue
}.

(** [item.status || item.attendanceStatus || 'absent'] *)
Definition effectiveStatus (o : RawObject) : JsValue :=
  or (or (o_status o) (o_attendanceStatus o)) (JString "absent").

(** The object literal of the [map] callback for an object [o]; [None] is
    the [TypeError] of calling [toLowerCase] on a value that has none. *)
Definition processObject (nowISO : string) (o : RawObject) : option Processed :=
  match effectiveStatus o with
  | JString s =>
      Some {| employeeId := or (o_employeeId o) (JNumber 0);
              employeeName := or (o_employeeName o) (JString "Unknown");
              status :=
                if String.eqb (toLowerCase s) "halfday" then "half-day"
                else toLowerCase s;
              date :=
                or (or (o_currentDate o) (o_date o)) (JString nowISO);
              department :=
                or (or (o_department o) (o_role o)) (JString "N/A");
              position :=
                or (or (o_position o) (o_role o)) (JString "N/A");
              lastCheckIn :=
                or (or (o_lastCheckIn o) (o_checkInTime o)) JNull |}
  | _ => None
  end.

(** The [map] callback; reading a property of [null] throws. *)
Definition processItem (nowISO : string) (item : RawItem) : option Processed :=
  match item with
  | ItemNull => None
  | ItemObject o => processObject nowISO o
  | ItemPlain => processObject nowISO emptyObject
  end.

(** [data.map(...)]: the first callback that throws ends the map. *)
Fixpoint processedData (nowISO : string) (data : list RawItem)
  : option (list Processed) :=
  match data with
  | [] => Some []
  | item :: rest =>
      match processItem nowISO item with
      | None => None
      | Some r =>
          match processedData nowISO rest with
          | None => None
          | Some rs => Some (r :: rs)
          end
      end
  end.


(** The state [fetchAttendanceData] writes. *)
Record State := mkState {
  attendanceData : list Processed;
  loading : bool;
  error : option string
}.






End Ingest.

(** ** Lines of a text, and a Set in insertion order *)

Module Lines.

Import DashboardView.

(** The pieces of a text between its line feeds. *)
Fixpoint splitLines (s : string) : list string :=
  match s with
  | EmptyString => [EmptyString]
  | String c r =>
      if Ascii.eqb c newline then EmptyString :: splitLines r
      else match splitLines r with
           | w :: ws => String c w :: ws
           | [] => [String c EmptyString]
           end
  end.

End Lines.

Module JsSet.

(** A JavaScript [Set] of ids as the list of its elements in insertion
    order; [Array.from] of the set is this list. *)
Definition has (x : Z) (s : list Z) : bool := existsb (Z.eqb x) s.

Definition add (x : Z) (s : list Z) : list Z :=
  if has x s then s else s ++ [x].

Definition delete (x : Z) (s : list Z) : list Z :=
  List.filter (fun y => negb (Z.eqb y x)) s.

(** The updater of [handleEmployeeSelect] on the copy of the previous set. *)
Definition toggle (employeeId : Z) (prev : list Z) : list Z :=
  let newSet := prev in
  if has employeeId newSet then delete employeeId newSet
  else add employeeId newSet.

End JsSet.

(** * Properties *)

(** ** Strings *)

Section StringFacts.

Import JsString.

Lemma prefix_spec (t s : string) :
  String.prefix t s = true <-> exists post, s = t +:+ post.
Proof.
  revert s. induction t as [|a t IH]; intros s.
  - destruct s; simpl; split; eauto.
  - destruct s as [|b s]; simpl.
    + split; [discriminate | intros [post H]; discriminate].
    + destruct (ascii_dec a b) as [->|Hne].
      * rewrite IH. split; intros [post H]; exists post.
        -- now rewrite H.
        -- now inversion H.
      * split; [discriminate | intros [post H]; inversion H; congruence].
Qed.

Lemma includes_spec (s t : string) :
  includes s t = true <-> exists pre post, s = pre +:+ t +:+ post.
Proof.
  induction s as [|c s IH]; cbn [includes].
  - rewrite orb_false_r, prefix_spec. split.
    + intros [post H]. exists "", post. exact H.
    + intros [pre [post H]]. destruct pre; [eauto | discriminate].
  - rewrite orb_true_iff, prefix_spec, IH. split.
    + intros [[post H] | [pre [post H]]].
      * exists "", post. exact H.
      * exists (String c pre), post. simpl. now rewrite H.
    + intros [pre [post H]]. destruct pre as [|c' pre]; simpl in H.
      * left. eauto.
      * right. exists pre, post. now inversion H.
Qed.

Lemma includes_matches_ci (field term : string) :
  includes (toLowerCase field) (toLowerCase term) = true <->
  matches_ci field term.
Proof. apply includes_spec. Qed.

Lemma all_chars_app (p : ascii -> bool) (s t : string) :
  all_chars p (s +:+ t) = all_chars p s && all_chars p t.
Proof.
  induction s as [|c s IH]; simpl; [reflexivity|].
  now rewrite IH, andb_assoc.
Qed.

Lemma toLowerChar_nonletter (c : ascii) :
  isLetter c = false -> toLowerChar c = c.
Proof.
  unfold isLetter, toLowerChar. intros H.
  apply orb_false_iff in H as [-> _]. reflexivity.
Qed.

Lemma toLowerChar_letter (c : ascii) :
  isLetter c = true -> isLetter (toLowerChar c) = true.
Proof.
  revert c.
  assert (H : forall n, (n < 256)%nat ->
              isLetter (ascii_of_nat n) = true ->
              isLetter (toLowerChar (ascii_of_nat n)) = true).
  { intros n Hn. do 256 (destruct n as [|n]; [vm_compute; tauto|]). lia. }
  intros c Hc. rewrite <- (ascii_nat_embedding c) in *.
  apply H; [apply nat_ascii_bounded | exact Hc].
Qed.

Lemma toLowerCase_nonletters (s : string) :
  all_chars (fun c => negb (isLetter c)) s = true -> toLowerCase s = s.
Proof.
  induction s as [|c s IH]; simpl; [reflexivity|].
  intros H. apply andb_true_iff in H as [Hc Hs].
  rewrite IH by exact Hs.
  rewrite toLowerChar_nonletter; [reflexivity|].
  now apply negb_true_iff.
Qed.

(** Lower-casing cannot turn a string with a letter into one without. *)
Lemma toLowerCase_nonletters_inv (s : string) :
  all_chars (fun c => negb (isLetter c)) (toLowerCase s) = true ->
  all_chars (fun c => negb (isLetter c)) s = true.
Proof.
  induction s as [|c s IH]; simpl; [reflexivity|].
  intros H. apply andb_true_iff in H as [Hc Hs].
  rewrite IH by exact Hs. rewrite andb_true_r.
  destruct (isLetter c) eqn:E; [|reflexivity].
  apply toLowerChar_letter in E. now rewrite E in Hc.
Qed.

Lemma string_of_uint_nonletters (d : Decimal.uint) :
  all_chars (fun c => negb (isLetter c)) (NilEmpty.string_of_uint d) = true.
Proof. induction d; simpl; auto. Qed.

Lemma Number_toString_nonletters (n : Z) :
  all_chars (fun c => negb (isLetter c)) (Number_toString n) = true.
Proof.
  unfold Number_toString. destruct (Z.to_int n) as [d|d]; simpl.
  - apply string_of_uint_nonletters.
  - apply string_of_uint_nonletters.
Qed.

Lemma Number_toString_lower (n : Z) :
  toLowerCase (Number_toString n) = Number_toString n.
Proof. apply toLowerCase_nonletters, Number_toString_nonletters. Qed.

Lemma matches_ci_empty (field : string) : matches_ci field "".
Proof. exists "", (toLowerCase field). reflexivity. Qed.

End StringFacts.

(** ** Search filters *)

Section SearchFacts.

Import JsString.

(** C3, the claim as stated fails on the employee lists: an employee whose
    role contains the term, while name and id do not, is filtered out. *)
Lemma search_ignores_role :
  let e := mkEmployee 1 "Asha" (Some "Baker") None None in
  matches_ci "Baker" "baker" /\
  ~ In e (Bulk.filteredEmployees [e] "baker") /\
  ~ In e (AttendancePage.filteredEmployees [e] "baker").
Proof.
  split; [|split].
  - exists "", "". reflexivity.
  - vm_compute. tauto.
  - vm_compute. tauto.
Qed.

(** The scenario of the specification: searching "rav" keeps Ravi only. *)
Example search_rav :
  let asha := mkEmployee 1 "Asha" None None None in
  let ravi := mkEmployee 2 "Ravi" None None None in
  AttendancePage.filteredEmployees [asha; ravi] "rav" = [ravi] /\
  Bulk.filteredEmployees [asha; ravi] "RAV" = [ravi] /\
  AttendancePage.paginate [ravi] 10 1 = [ravi].
Proof. repeat split. Qed.

(** The status filter of the dashboard: "all" keeps every record, any other
    value keeps the records with exactly that status. *)
Lemma status_filter_exact (data : list Dashboard.AttendanceRecord)
    (statusFilter : string) (r : Dashboard.AttendanceRecord) :
  In r (Dashboard.filteredData data "" statusFilter) <->
  In r data /\ (statusFilter = "all" \/ Dashboard.status r = statusFilter).
Proof.
  unfold Dashboard.filteredData. simpl.
  destruct (String.eqb_spec statusFilter "all") as [->|Hne]; simpl.
  - tauto.
  - rewrite filter_In. rewrite String.eqb_eq. tauto.
Qed.

End SearchFacts.


(** ** Search filters over the built-in case folding *)

Section NumeralFacts.

Import JsString Search.

Lemma all_chars_impl (p q : ascii -> bool) (s : string) :
  (forall c, p c = true -> q c = true) ->
  all_chars p s = true -> all_chars q s = true.
Proof.
  intros Hpq. induction s as [|c s IH]; simpl; [reflexivity|].
  intros H. apply andb_true_iff in H as [Hc Hs].
  now rewrite (Hpq c Hc), IH.
Qed.

Lemma numeric_app (s t : string) :
  numeric (s +:+ t) = numeric s && numeric t.
Proof. apply all_chars_app. Qed.

Lemma numeric_string_of_uint (d : Decimal.uint) :
  numeric (NilEmpty.string_of_uint d) = true.
Proof. unfold numeric. induction d; simpl; auto. Qed.

Lemma numeric_Number_toString (n : Z) : numeric (Number_toString n) = true.
Proof.
  unfold Number_toString. destruct (Z.to_int n) as [d|d].
  - apply numeric_string_of_uint.
  - change (numeric ("-" +:+ NilEmpty.string_of_uint d) = true).
    rewrite numeric_app, numeric_string_of_uint. reflexivity.
Qed.

(** A substring of a numeral is numeric. *)
Lemma includes_numeric (s t : string) :
  numeric s = true -> includes s t = true -> numeric t = true.
Proof.
  intros Hs Ht. apply includes_spec in Ht as [pre [post ->]].
  rewrite !numeric_app in Hs.
  apply andb_true_iff in Hs as [_ Hs].
  now apply andb_true_iff in Hs as [Hs _].
Qed.

Lemma numeric_nonletters (s : string) :
  numeric s = true -> all_chars (fun c => negb (isLetter c)) s = true.
Proof.
  apply all_chars_impl. intros c.
  rewrite <- (ascii_nat_embedding c).
  pose proof (nat_ascii_bounded c) as Hn.
  revert Hn. generalize (nat_of_ascii c). intros n Hn.
  do 256 (destruct n as [|n]; [vm_compute; tauto|]). lia.
Qed.

(** The folding of the ASCII letters leaves a numeric string alone, and it
    makes no string numeric that was not. *)
Lemma ascii_folding_numeric (s : string) :
  numeric s = true -> toLowerCase s = s.
Proof. intros H. now apply toLowerCase_nonletters, numeric_nonletters. Qed.

Lemma ascii_folding_numeric_inv (s : string) :
  numeric (toLowerCase s) = true -> toLowerCase s = s.
Proof.
  intros H. apply toLowerCase_nonletters, toLowerCase_nonletters_inv.
  now apply numeric_nonletters.
Qed.

(** The filters of the three pages are the parametric ones at the folding of
    the ASCII letters. *)
Lemma filters_at_ascii_folding :
  Dashboard.filteredData = Search.filteredData toLowerCase /\
  Bulk.filteredEmployees = Search.bulkFilteredEmployees toLowerCase /\
  AttendancePage.filteredEmployees = Search.pageFilteredEmployees toLowerCase.
Proof. repeat split. Qed.

End NumeralFacts.

Section FoldedSearchFacts.

Import JsString Search.

Variable lower : string -> string.

Hypothesis lower_numeric : forall s, numeric s = true -> lower s = s.

Hypothesis lower_numeric_inv :
  forall s, numeric (lower s) = true -> lower s = s.

Lemma includes_matches (field term : string) :
  includes (lower field) (lower term) = true <-> matches lower field term.
Proof. apply includes_spec. Qed.

Lemma matches_empty (field : string) : matches lower field "".
Proof.
  exists "", (lower field). now rewrite (lower_numeric "").
Qed.

Lemma numeral_includes_lower (n : Z) (term : string) :
  includes (Number_toString n) (lower term) = true <->
  matches lower (Number_toString n) term.
Proof.
  rewrite <- includes_matches.
  now rewrite (lower_numeric (Number_toString n)
                 (numeric_Number_toString n)).
Qed.

Lemma numeral_includes_raw (n : Z) (term : string) :
  includes (Number_toString n) term = true <->
  matches lower (Number_toString n) term.
Proof.
  rewrite <- numeral_includes_lower.
  pose proof (numeric_Number_toString n) as Hn.
  split; intros H.
  - rewrite lower_numeric; [exact H|].
    eapply includes_numeric; eassumption.
  - rewrite <- (lower_numeric_inv term); [exact H|].
    eapply includes_numeric; eassumption.
Qed.

(** C3, as the code has it.  Case is folded by the built-in
    [toLowerCase], of which only this is used: it leaves a string of digits
    and minus signs alone and turns no other string into one.  Ids are safe
    integers, which print as plain decimal numerals.  Then a record of the
    dashboard list is in the filtered result (status filter "all") exactly
    when the term matches, case folded, as a substring of its name, its
    stringified id, its department or its position; an employee of the bulk
    page or of the attendance page exactly when the term matches, case
    folded, as a substring of the name or of the stringified id.  No list
    searches the role. *)
Theorem search_filter_fields :
  (forall (data : list Dashboard.AttendanceRecord) (term : string)
          (r : Dashboard.AttendanceRecord),
      safeInteger (Dashboard.employeeId r) ->
      (In r (Search.filteredData lower data term "all") <->
       In r data /\
       (matches lower (Dashboard.employeeName r) term \/
        matches lower (Number_toString (Dashboard.employeeId r)) term \/
        matches lower (Dashboard.department r) term \/
        matches lower (Dashboard.position r) term))) /\
  (forall (emps : list Employee) (term : string) (e : Employee),
      safeInteger (id e) ->
      (In e (Search.bulkFilteredEmployees lower emps term) <->
       In e emps /\
       (matches lower (name e) term \/
        matches lower (Number_toString (id e)) term))) /\
  (forall (emps : list Employee) (term : string) (e : Employee),
      safeInteger (id e) ->
      (In e (Search.pageFilteredEmployees lower emps term) <->
       In e emps /\
       (matches lower (name e) term \/
        matches lower (Number_toString (id e)) term))).
Proof.
  split; [|split].
  - intros data term r _. unfold Search.filteredData. cbv zeta.
    destruct (String.eqb_spec term "") as [->|Hne]; simpl.
    + pose proof (matches_empty (Dashboard.employeeName r)). tauto.
    + rewrite filter_In, !orb_true_iff, !includes_matches,
        numeral_includes_lower.
      tauto.
  - intros emps term e _. unfold Search.bulkFilteredEmployees.
    destruct (String.eqb_spec term "") as [->|Hne].
    + pose proof (matches_empty (name e)). tauto.
    + cbv zeta.
      rewrite filter_In, orb_true_iff, includes_matches, numeral_includes_raw.
      reflexivity.
  - intros emps term e _. unfold Search.pageFilteredEmployees.
    rewrite filter_In, orb_true_iff, includes_matches, numeral_includes_lower.
    reflexivity.
Qed.

End FoldedSearchFacts.

(** The three pages' own filters, at the folding of the ASCII letters:
    "RAV" finds Ravi by name and "4" finds employee 42 by id. *)
Lemma search_filter_fields_witness :
  let asha := mkEmployee 7 "Asha" None None None in
  let ravi := mkEmployee 42 "Ravi" None None None in
  Search.safeInteger 42 /\
  In ravi (Bulk.filteredEmployees [asha; ravi] "RAV") /\
  In ravi (AttendancePage.filteredEmployees [asha; ravi] "4").
Proof.
  cbv zeta.
  destruct (search_filter_fields JsString.toLowerCase
              ascii_folding_numeric ascii_folding_numeric_inv)
    as (_ & Hbulk & Hpage).
  assert (Hsafe : Search.safeInteger 42)
    by (unfold Search.safeInteger, Search.MAX_SAFE_INTEGER; simpl; lia).
  split; [exact Hsafe|]. split.
  - apply (Hbulk [mkEmployee 7 "Asha" None None None;
                  mkEmployee 42 "Ravi" None None None]
                 "RAV" (mkEmployee 42 "Ravi" None None None) Hsafe).
    split; [right; left; reflexivity|].
    left. exists "", "i". reflexivity.
  - apply (Hpage [mkEmployee 7 "Asha" None None None;
                  mkEmployee 42 "Ravi" None None None]
                 "4" (mkEmployee 42 "Ravi" None None None) Hsafe).
    split; [right; left; reflexivity|].
    right. exists "", "2". reflexivity.
Defined.

(** ** Pagination *)

Section PaginationFacts.

Import JsArray AttendancePage.

Context {A : Type}.

Implicit Types (l : list A) (P : Z).

(** With non-negative indices [slice] is a [take] of a [drop]. *)
Lemma slice_nonneg l (s e : Z) :
  0 <= s -> s <= e ->
  slice l s e = take (Z.to_nat (e - s)) (drop (Z.to_nat s) l).
Proof.
  intros Hs He. unfold slice.
  destruct (Z.ltb_spec s 0) as [?|_]; [lia|].
  destruct (Z.ltb_spec e 0) as [?|_]; [lia|].
  set (len := Z.of_nat (length l)).
  destruct (Z.le_gt_cases len s) as [Hout|Hin].
  - rewrite (Z.min_r s), (Z.min_r e) by lia.
    rewrite Z.sub_diag. simpl. rewrite take_0.
    rewrite (drop_ge l (Z.to_nat s)) by (subst len; lia).
    now destruct (Z.to_nat (e - s)).
  - rewrite (Z.min_l s) by lia.
    destruct (Z.le_gt_cases e len) as [Hfit|Hcut].
    + now rewrite (Z.min_l e) by lia.
    + rewrite (Z.min_r e) by lia.
      rewrite !take_ge; [reflexivity | |]; rewrite length_drop; subst len; lia.
Qed.

(** Page [k] holds the [P] records after the first [(k-1) * P]. *)
Lemma paginate_nth_page l (p k : nat) :
  (0 < p)%nat ->
  paginate l (Z.of_nat p) (Z.of_nat (S k)) = take p (drop (k * p) l).
Proof.
  intros Hp. unfold paginate. cbv zeta.
  rewrite slice_nonneg by nia.
  f_equal; [|f_equal]; nia.
Qed.

(** The first [m] pages make up the first [m * P] records. *)
Lemma concat_first_pages l (p m : nat) :
  (0 < p)%nat ->
  concat (List.map (fun k => paginate l (Z.of_nat p) (Z.of_nat k)) (seq 1 m))
  = take (m * p) l.
Proof.
  intros Hp. induction m as [|m IH].
  - simpl. now rewrite take_0.
  - rewrite seq_S, List.map_app, concat_app, IH. simpl.
    rewrite paginate_nth_page by exact Hp.
    rewrite app_nil_r, take_take_drop. f_equal. lia.
Qed.

(** [ceil_div n p] pages of size [p] are enough for [n] records, and one
    page fewer is not. *)
Lemma ceil_div_bounds (n p : Z) :
  0 < p -> p * (ceil_div n p - 1) < n <= p * ceil_div n p.
Proof.
  intros Hp. unfold ceil_div.
  pose proof (Z.mul_div_le (- n) p Hp).
  pose proof (Z.mul_succ_div_gt (- n) p Hp).
  lia.
Qed.

(** C7: for every collection and every positive page size, the pages
    1..ceil(N/P), each the slice [(k-1)*P, k*P), concatenated in order give
    back the collection: nothing is duplicated, nothing is left out. *)
Theorem pagination_coverage l P :
  0 < P -> concat (allPages l P) = l.
Proof.
  intros HP. unfold allPages, pageCount.
  pose proof (ceil_div_bounds (Z.of_nat (length l)) P HP) as [_ Hc].
  set (c := ceil_div (Z.of_nat (length l)) P) in *.
  replace P with (Z.of_nat (Z.to_nat P)) by lia.
  rewrite concat_first_pages by lia.
  apply take_ge. nia.
Qed.

(** The pager of the attendance page uses pages of ten employees. *)
Corollary pagination_coverage_ten l :
  concat (allPages l employeesPerPage) = l.
Proof. apply pagination_coverage. reflexivity. Qed.

(** The last page is not empty, so no page of the range is superfluous. *)
Lemma last_page_nonempty l P :
  0 < P -> l <> [] -> paginate l P (pageCount l P) <> [].
Proof.
  intros HP Hl. unfold pageCount.
  pose proof (ceil_div_bounds (Z.of_nat (length l)) P HP) as [Hlo Hhi].
  set (c := ceil_div (Z.of_nat (length l)) P) in *.
  assert (Hlen : (0 < length l)%nat) by (destruct l; [congruence | simpl; lia]).
  assert (Hc : 1 <= c) by nia.
  assert (Hfirst : 0 <= c * P - P) by nia.
  unfold paginate. cbv zeta. rewrite slice_nonneg by lia.
  intros Hnil. apply (f_equal (@length A)) in Hnil.
  rewrite length_take, length_drop in Hnil. simpl in Hnil.
  replace (c * P - P) with (P * (c - 1)) in Hnil by lia.
  replace (c * P - P * (c - 1)) with P in Hnil by lia.
  lia.
Qed.

End PaginationFacts.

(** Twenty-three records in pages of ten: 10 + 10 + 3. *)
Lemma pagination_coverage_witness :
  0 < 10 /\
  concat (AttendancePage.allPages (seq 1 23) 10) = seq 1 23.
Proof.
  split; [lia | apply (pagination_coverage (seq 1 23) 10); lia].
Defined.

(** Changing the search text shows the first page of the new result. *)
Lemma handleSearchChange_first_page (value : string) (st : AttendancePage.State) :
  AttendancePage.currentPage (AttendancePage.handleSearchChange value st) = 1 /\
  AttendancePage.paginatedEmployees (AttendancePage.handleSearchChange value st)
  = take 10 (AttendancePage.filteredEmployees (AttendancePage.employees st) value).
Proof.
  split; [reflexivity|].
  unfold AttendancePage.paginatedEmployees. simpl.
  change AttendancePage.employeesPerPage with (Z.of_nat 10).
  change 1 with (Z.of_nat 1).
  now rewrite paginate_nth_page by lia.
Qed.

(** ** Ingest normalisation *)

Section IngestFacts.

Import JsString Dashboard.

Lemma or_else_truthy (a : option string) (b v : string) :
  a = Some v -> v <> "" -> or_else a b = v.
Proof.
  intros -> Hv. unfold or_else.
  now destruct (String.eqb_spec v "").
Qed.

Lemma or_else_falsy (a : option string) (b : string) :
  truthy a = false -> or_else a b = b.
Proof.
  unfold truthy, or_else. destruct a as [s|]; [|reflexivity].
  destruct (String.eqb s ""); [reflexivity | discriminate].
Qed.

Lemma or_else_nonempty (a : option string) (b : string) :
  b <> "" -> or_else a b <> "".
Proof.
  intros Hb. unfold or_else. destruct a as [s|]; [|exact Hb].
  now destruct (String.eqb_spec s "").
Qed.

Lemma truthy_Some (v : string) : v <> "" -> truthy (Some v) = true.
Proof. intros Hv. simpl. now destruct (String.eqb_spec v ""). Qed.

(** C4, as the code has it: with neither status field present the status is
    'absent'; 'halfday' in any letter case, taken from [status] or, when that
    is absent, from [attendanceStatus], becomes 'half-day'; every other value
    is kept in lower case, it is not replaced by 'absent'. *)
Theorem status_normalization (nowISO : string) (item : RawEntry) :
  let s := status (processEntry nowISO item) in
  (truthy (raw_status item) = false ->
   truthy (raw_attendanceStatus item) = false -> s = "absent") /\
  (forall v, toLowerCase v = "halfday" ->
     raw_status item = Some v \/
     (truthy (raw_status item) = false /\ raw_attendanceStatus item = Some v) ->
     s = "half-day") /\
  (forall v, v <> "" -> toLowerCase v <> "halfday" ->
     raw_status item = Some v \/
     (truthy (raw_status item) = false /\ raw_attendanceStatus item = Some v) ->
     s = toLowerCase v).
Proof.
  cbv zeta. simpl. unfold rawStatus. split; [|split].
  - intros H1 H2. now rewrite !or_else_falsy.
  - intros v Hv Hsrc.
    assert (Hne : v <> "") by (intros ->; discriminate).
    assert (Hraw : or_else (raw_status item)
                     (or_else (raw_attendanceStatus item) "absent") = v).
    { destruct Hsrc as [H|[H1 H2]].
      - now apply or_else_truthy.
      - rewrite or_else_falsy by exact H1. now apply or_else_truthy. }
    now rewrite Hraw, Hv.
  - intros v Hne Hv Hsrc.
    assert (Hraw : or_else (raw_status item)
                     (or_else (raw_attendanceStatus item) "absent") = v).
    { destruct Hsrc as [H|[H1 H2]].
      - now apply or_else_truthy.
      - rewrite or_else_falsy by exact H1. now apply or_else_truthy. }
    rewrite Hraw. now destruct (String.eqb_spec (toLowerCase v) "halfday").
Qed.

(** A mixed-case token in [attendanceStatus], with no [status] field. *)
Lemma status_normalization_witness :
  let item :=
    mkRawEntry (Some 1) (Some "Asha") None (Some "HalfDay") None None None None
               None None None in
  toLowerCase "HalfDay" = "halfday" /\
  status (processEntry "2024-05-01T00:00:00.000Z" item) = "half-day".
Proof.
  split; [reflexivity|].
  destruct (status_normalization "2024-05-01T00:00:00.000Z"
              (mkRawEntry (Some 1) (Some "Asha") None (Some "HalfDay") None
                          None None None None None None))
    as (_ & Hhalf & _).
  apply (Hhalf "HalfDay"); [reflexivity | right; split; reflexivity].
Defined.

(** C4, the claim as stated fails: an unrecognised status is passed through
    in lower case. *)
Lemma unrecognized_status_kept :
  let item :=
    mkRawEntry (Some 7) (Some "Asha") (Some "Late") None None None None None
               None None None in
  status (processEntry "2024-05-01T00:00:00.000Z" item) = "late" /\
  status (processEntry "2024-05-01T00:00:00.000Z" item) <> "absent".
Proof. split; [reflexivity | discriminate]. Qed.

(** The two scenarios of the specification. *)
Example status_scenarios :
  let halfday :=
    mkRawEntry (Some 1) (Some "Asha") None (Some "HALFDAY") None None None None
               None None None in
  let nostatus :=
    mkRawEntry (Some 2) (Some "Ravi") None None None None None None None None
               None in
  status (processEntry "" halfday) = "half-day" /\
  status (processEntry "" nostatus) = "absent".
Proof. split; reflexivity. Qed.

(** An entry without any field, processed. *)
Example ingest_empty_entry :
  processEntry "2024-05-01T00:00:00.000Z"
    (mkRawEntry None None None None None None None None None None None)
  = mkAttendanceRecord 0 "Unknown" "absent" "2024-05-01T00:00:00.000Z"
      "N/A" "N/A" None.
Proof. reflexivity. Qed.

End IngestFacts.


(** ** Ingest over untyped JSON *)

Section UntypedIngestFacts.

Import JsString Ingest.
















End UntypedIngestFacts.

(** ** Summary counts *)

Section SummaryFacts.

Import Dashboard.

Open Scope nat_scope.

Lemma filter_status_count (v : string) (data : list AttendanceRecord) :
  length (List.filter (fun item => String.eqb (status item) v) data)
  = count_occ string_dec (List.map status data) v.
Proof.
  induction data as [|r data IH]; simpl; [reflexivity|].
  destruct (String.eqb_spec (status r) v) as [E|E];
    destruct (string_dec (status r) v) as [E'|E']; try contradiction;
    simpl; now rewrite IH.
Qed.

(** Every record is counted once: under its canonical status, or among the
    records with another status. *)
Lemma summary_partition (data : list AttendanceRecord) :
  present (calculateSummary data) + absent (calculateSummary data)
  + halfDay (calculateSummary data)
  + length (List.filter (fun item => negb (canonical item)) data)
  = total (calculateSummary data).
Proof.
  unfold calculateSummary, canonical. simpl.
  induction data as [|r data IH]; simpl; [reflexivity|].
  destruct (String.eqb_spec (status r) "present") as [E1|E1];
    destruct (String.eqb_spec (status r) "absent") as [E2|E2];
    destruct (String.eqb_spec (status r) "half-day") as [E3|E3];
    try (rewrite E1 in *; discriminate);
    try (rewrite E2 in *; discriminate);
    simpl; lia.
Qed.

Lemma filter_none {B : Type} (f : B -> bool) (l : list B) :
  Forall (fun x => f x = false) l -> List.filter f l = [].
Proof.
  induction 1 as [|x l Hx _ IH]; simpl; [reflexivity|]. now rewrite Hx.
Qed.

Lemma filter_some {B : Type} (f : B -> bool) (l : list B) :
  Exists (fun x => f x = true) l -> 0 < length (List.filter f l).
Proof.
  induction 1 as [x l Hx | x l _ IH]; simpl.
  - rewrite Hx. simpl. lia.
  - destruct (f x); simpl; lia.
Qed.

(** C8: the summary counts the records of each canonical status and takes
    the length of the collection as the total; the three counts add up to the
    total when every status is canonical, and stay below it as soon as one
    record carries another status. *)
Theorem summary_counts (data : list AttendanceRecord) :
  let s := calculateSummary data in
  present s = count_occ string_dec (List.map status data) "present" /\
  absent s = count_occ string_dec (List.map status data) "absent" /\
  halfDay s = count_occ string_dec (List.map status data) "half-day" /\
  total s = length data /\
  present s + absent s + halfDay s <= total s /\
  (Forall (fun item => canonical item = true) data ->
   present s + absent s + halfDay s = total s) /\
  (Exists (fun item => canonical item = false) data ->
   present s + absent s + halfDay s < total s).
Proof.
  cbv zeta. pose proof (summary_partition data) as Hpart.
  repeat split.
  - apply filter_status_count.
  - apply filter_status_count.
  - apply filter_status_count.
  - lia.
  - intros Hall. rewrite filter_none in Hpart; [cbn [length] in Hpart; lia|].
    eapply Forall_impl; [exact Hall|]. simpl. intros r Hr. now rewrite Hr.
  - intros Hex.
    assert (0 < length (List.filter (fun item => negb (canonical item)) data)).
    { apply filter_some. eapply Exists_impl; [exact Hex|].
      simpl. intros r Hr. now rewrite Hr. }
    lia.
Qed.

(** One record with a status outside the three canonical ones. *)
Lemma summary_counts_witness :
  let rec s := mkAttendanceRecord 1 "A" s "2024-05-01" "N/A" "N/A" None in
  let s := calculateSummary [rec "present"; rec "late"; rec "half-day"] in
  present s + absent s + halfDay s < total s.
Proof.
  cbv zeta.
  destruct (summary_counts
              [mkAttendanceRecord 1 "A" "present" "2024-05-01" "N/A" "N/A" None;
               mkAttendanceRecord 1 "A" "late" "2024-05-01" "N/A" "N/A" None;
               mkAttendanceRecord 1 "A" "half-day" "2024-05-01" "N/A" "N/A" None])
    as (_ & _ & _ & _ & _ & _ & Hless).
  apply Hless. apply Exists_cons_tl, Exists_cons_hd. reflexivity.
Defined.

(** Two canonical records and one with another status. *)
Example summary_with_unrecognized :
  let rec s := mkAttendanceRecord 1 "A" s "2024-05-01" "N/A" "N/A" None in
  calculateSummary [rec "present"; rec "late"; rec "half-day"]
  = mkSummary 1 0 1 3.
Proof. reflexivity. Qed.

End SummaryFacts.

(** ** The roster cache *)

Section CacheFacts.

Import Bulk.

Lemma cacheGet_fresh (cache : Cache) (now : Z) (d : list Employee) :
  cacheGet cache now = Some d <->
  data cache = Some d /\ now - toNumber (timestamp cache) < CACHE_DURATION.
Proof.
  unfold cacheGet. destruct (data cache) as [d'|].
  - destruct (Z.ltb_spec (now - toNumber (timestamp cache)) CACHE_DURATION);
      split; try intros [? ?]; try congruence; try lia; auto.
  - split; [discriminate | intros [? _]; discriminate].
Qed.

(** C5: after a [set] at [t0] the roster cache returns the stored value
    exactly while [now - t0 < 300000], so at [t0 + 299999] it still does and
    at [t0 + 300001] it does not; a fresh entry is served without a request,
    an expired one makes [fetchEmployees] send a request, and the successful
    response replaces the entry and stamps it with the time of that call. *)
Theorem cache_ttl (d : list Employee) (t0 now : Z) :
  CACHE_DURATION = 300000 /\
  (cacheGet (cacheSet d t0) now = Some d <-> now - t0 < 300000) /\
  (cacheGet (cacheSet d t0) now = None <-> 300000 <= now - t0) /\
  cacheGet (cacheSet d t0) (t0 + 299999) = Some d /\
  cacheGet (cacheSet d t0) (t0 + 300001) = None /\
  (forall st, now - t0 < 300000 ->
     employees (fst (fetchEmployees_start now (cacheSet d t0) st)) = d /\
     snd (fetchEmployees_start now (cacheSet d t0) st) = []) /\
  (forall st, 300000 <= now - t0 ->
     snd (fetchEmployees_start now (cacheSet d t0) st) = [GetEmployees]) /\
  (forall st d',
     fst (fst (fetchEmployees_settle now (FetchOk d') (cacheSet d t0) st))
     = cacheSet d' now /\
     employees (snd (fst (fetchEmployees_settle now (FetchOk d')
                            (cacheSet d t0) st))) = d' /\
     cacheGet (cacheSet d' now) now = Some d').
Proof.
  assert (Hget : forall d1 t1 n,
             cacheGet (cacheSet d1 t1) n
             = if n - t1 <? 300000 then Some d1 else None) by reflexivity.
  split; [reflexivity|].
  split; [|split; [|split; [|split; [|split; [|split]]]]].
  - rewrite Hget. destruct (Z.ltb_spec (now - t0) 300000);
      split; try discriminate; try lia; auto.
  - rewrite Hget. destruct (Z.ltb_spec (now - t0) 300000);
      split; try discriminate; try lia; auto.
  - rewrite Hget. replace (t0 + 299999 - t0) with 299999 by lia. reflexivity.
  - rewrite Hget. replace (t0 + 300001 - t0) with 300001 by lia. reflexivity.
  - intros st Hfresh. unfold fetchEmployees_start. rewrite Hget.
    apply Z.ltb_lt in Hfresh. rewrite Hfresh. split; reflexivity.
  - intros st Hold. unfold fetchEmployees_start. rewrite Hget.
    apply Z.ltb_ge in Hold. now rewrite Hold.
  - intros st d'. split; [reflexivity|]. split; [reflexivity|].
    rewrite Hget, Z.sub_diag. reflexivity.
Qed.

(** A roster cached at instant 1000, read one second and ten minutes later. *)
Lemma cache_ttl_witness :
  let asha := mkEmployee 1 "Asha" None None None in
  let st := initialState "2024-05-01" in
  (2000 - 1000 < 300000 /\
   snd (fetchEmployees_start 2000 (cacheSet [asha] 1000) st) = []) /\
  (300000 <= 601000 - 1000 /\
   snd (fetchEmployees_start 601000 (cacheSet [asha] 1000) st) = [GetEmployees]).
Proof.
  cbv zeta. split.
  - split; [lia|].
    destruct (cache_ttl [mkEmployee 1 "Asha" None None None] 1000 2000)
      as (_ & _ & _ & _ & _ & Hfresh & _).
    apply Hfresh. lia.
  - split; [lia|].
    destruct (cache_ttl [mkEmployee 1 "Asha" None None None] 1000 601000)
      as (_ & _ & _ & _ & _ & _ & Hold & _).
    apply Hold. lia.
Defined.

(** When the request fails the last roster is shown even if it has expired,
    and the cache entry keeps its old time stamp. *)
Lemma stale_cache_fallback (d : list Employee) (t0 now : Z) (st : State) :
  fetchEmployees_settle now FetchFailed (cacheSet d t0) st
  = (cacheSet d t0, set_isLoading false (set_employees d st),
     [ConsoleError;
      Toast "error" (Some "Failed to load employees. Please try again later.")]).
Proof. reflexivity. Qed.

(** An empty cache never answers. *)
Lemma empty_cache_misses (now : Z) : cacheGet emptyCache now = None.
Proof. reflexivity. Qed.

End CacheFacts.

(** ** Validation before a bulk submission *)

Section ValidationFacts.

Import Bulk.

(** [selectedDate <= today] fails exactly when [today < selectedDate] in the
    lexicographic order of the two strings. *)
Lemma isDateValid_ltb (today : string) (st : State) :
  isDateValid today st = negb (String.ltb today (selectedDate st)).
Proof.
  unfold isDateValid, String.leb, String.ltb.
  rewrite (String.compare_antisym today (selectedDate st)).
  now destruct (String.compare (selectedDate st) today).
Qed.

Lemma size_zero_empty (s : gset Z) : (size s =? 0)%nat = true <-> s = ∅.
Proof.
  rewrite Nat.eqb_eq. split.
  - intros H. now apply leibniz_equiv, size_empty_iff.
  - intros ->. apply size_empty.
Qed.

(** What a call does once the three checks have passed. *)
Lemma markBulkAttendance_start_valid (today : string) (st : State) :
  selectedStatus st <> "" ->
  selectedEmployees st <> ∅ ->
  String.ltb today (selectedDate st) = false ->
  markBulkAttendance_start today st
  = (set_employees
       (optimistic (selectedEmployees st) (selectedStatus st) (employees st))
       (set_isMarking true st),
     [PostBulkMark {| req_employeeIds := elements (selectedEmployees st);
                      req_status := selectedStatus st;
                      req_date := selectedDate st |}],
     Some {| prevEmployees := employees st;
             employeeIds := elements (selectedEmployees st);
             status := selectedStatus st |}).
Proof.
  intros Hstatus Hsel Hdate. unfold markBulkAttendance_start.
  destruct (String.eqb_spec (selectedStatus st) "") as [?|_]; [contradiction|].
  destruct (size (selectedEmployees st) =? 0)%nat eqn:Hsize.
  - apply size_zero_empty in Hsize. contradiction.
  - rewrite isDateValid_ltb, Hdate. reflexivity.
Qed.

(** What a call does when one of the three checks fails: an error toast, no
    request, and only the date-warning flag may change. *)
Lemma markBulkAttendance_start_invalid (today : string) (st : State) :
  selectedStatus st = "" \/ selectedEmployees st = ∅ \/
  String.ltb today (selectedDate st) = true ->
  exists (message : string) (warned : bool),
    markBulkAttendance_start today st
    = (if warned then set_showDateWarning true st else st,
       [Toast "error" (Some message)], None).
Proof.
  intros Hbad. unfold markBulkAttendance_start.
  destruct (String.eqb_spec (selectedStatus st) "") as [_|Hstatus].
  { now exists "Please select attendance status", false. }
  destruct (size (selectedEmployees st) =? 0)%nat eqn:Hsize.
  { now exists "Please select at least one employee", false. }
  rewrite isDateValid_ltb.
  destruct Hbad as [H|[H|H]].
  - contradiction.
  - apply size_zero_empty in H. congruence.
  - rewrite H. simpl. eexists _, true. reflexivity.
Qed.

(** C6: a submission with an empty selection, without a status, or with a
    date after today in the lexicographic order of the date strings ends
    with an error toast and sends no request; any other submission sends the
    bulk-mark request for the selected ids, status and date. *)
Theorem submit_validation (today : string) (st : State) :
  (selectedEmployees st = ∅ \/ selectedStatus st = "" \/
   String.ltb today (selectedDate st) = true ->
   exists st' message,
     markBulkAttendance_start today st
     = (st', [Toast "error" (Some message)], None) /\
     employees st' = employees st /\
     selectedEmployees st' = selectedEmployees st /\
     isMarking st' = isMarking st /\
     forall o, markBulkAttendance today o st
               = (st', [Toast "error" (Some message)])) /\
  (selectedEmployees st <> ∅ -> selectedStatus st <> "" ->
   String.ltb today (selectedDate st) = false ->
   exists st' p,
     markBulkAttendance_start today st
     = (st',
        [PostBulkMark {| req_employeeIds := elements (selectedEmployees st);
                         req_status := selectedStatus st;
                         req_date := selectedDate st |}],
        Some p) /\
     isMarking st' = true).
Proof.
  split.
  - intros Hbad.
    destruct (markBulkAttendance_start_invalid today st) as [message [warned E]];
      [tauto|].
    eexists _, message. split; [exact E|].
    unfold markBulkAttendance. rewrite E.
    destruct warned; repeat split.
  - intros Hsel Hstatus Hdate.
    eexists _, _. split.
    + now apply markBulkAttendance_start_valid.
    + reflexivity.
Qed.

(** A submission dated tomorrow, and the same submission dated today. *)
Lemma submit_validation_witness :
  let asha := mkEmployee 1 "Asha" None None None in
  let tomorrow := mkState [asha] "" "present" {[1]} false false false
                          "2024-05-02" in
  let today := mkState [asha] "" "present" {[1]} false false false
                       "2024-05-01" in
  (exists st' message,
     markBulkAttendance_start "2024-05-01" tomorrow
     = (st', [Toast "error" (Some message)], None)) /\
  (exists st' p,
     markBulkAttendance_start "2024-05-01" today
     = (st', [PostBulkMark (mkMarkRequest (elements ({[1]} : gset Z))
                                          "present" "2024-05-01")],
        Some p)).
Proof.
  cbv zeta. split.
  - destruct (submit_validation "2024-05-01"
                (mkState [mkEmployee 1 "Asha" None None None] "" "present"
                         {[1]} false false false "2024-05-02"))
      as [Hbad _].
    destruct Hbad as (st' & message & E & _).
    + right. right. reflexivity.
    + exists st', message. exact E.
  - destruct (submit_validation "2024-05-01"
                (mkState [mkEmployee 1 "Asha" None None None] "" "present"
                         {[1]} false false false "2024-05-01"))
      as [_ Hgood].
    destruct Hgood as (st' & p & E & _).
    + simpl. intros H. apply (f_equal size) in H. vm_compute in H. discriminate.
    + simpl. discriminate.
    + reflexivity.
    + exists st', p. exact E.
Defined.

(** Dates in the fixed-width form compare as expected. *)
Example date_comparison :
  String.ltb "2024-05-01" "2024-05-02" = true /\
  String.ltb "2024-05-01" "2024-04-30" = false /\
  String.ltb "2024-12-31" "2025-01-01" = true /\
  String.leb "2024-05-01" "2024-05-01" = true.
Proof. repeat split. Qed.

End ValidationFacts.

(** ** Selection *)

Section SelectionFacts.

Import Bulk.

Lemma filteredEmployees_subset (emps : list Employee) (term : string) (e : Employee) :
  In e (filteredEmployees emps term) -> In e emps.
Proof.
  unfold filteredEmployees. destruct (String.eqb term ""); [tauto|].
  rewrite filter_In. tauto.
Qed.

Lemma NoDup_map_inj {B C : Type} (f : B -> C) (l : list B) (a b : B) :
  List.NoDup (List.map f l) -> In a l -> In b l -> f a = f b -> a = b.
Proof.
  induction l as [|x l IH]; simpl; [tauto|].
  intros Hnd Ha Hb Hf. inversion Hnd as [|? ? Hx Hl]; subst.
  destruct Ha as [->|Ha], Hb as [->|Hb]; auto.
  - exfalso. apply Hx. rewrite Hf. now apply in_map.
  - exfalso. apply Hx. rewrite <- Hf. now apply in_map.
Qed.

(** C9: ticking select-all replaces the selection by exactly the ids of the
    employees that pass the current search, unticking it empties the
    selection; nothing else changes, and with distinct ids an employee
    hidden by the search is not selected. *)
Theorem select_all_filtered (st : State) :
  (forall i : Z,
     i ∈ selectedEmployees (handleSelectAll true st) <->
     exists e, In e (filteredEmployees (employees st) (search st)) /\ id e = i) /\
  selectedEmployees (handleSelectAll false st) = ∅ /\
  (forall checked,
     employees (handleSelectAll checked st) = employees st /\
     search (handleSelectAll checked st) = search st) /\
  (List.NoDup (List.map id (employees st)) ->
   forall e, In e (employees st) ->
     ~ In e (filteredEmployees (employees st) (search st)) ->
     id e ∉ selectedEmployees (handleSelectAll true st)).
Proof.
  assert (Hmem : forall i : Z,
     i ∈ selectedEmployees (handleSelectAll true st) <->
     exists e, In e (filteredEmployees (employees st) (search st)) /\ id e = i).
  { intros i. simpl. rewrite elem_of_list_to_set, list_elem_of_In, in_map_iff.
    split; intros [e [H1 H2]]; exists e; tauto. }
  split; [exact Hmem|]. split; [reflexivity|]. split.
  - intros []; split; reflexivity.
  - intros Hnd e He Hhidden Hsel.
    apply Hmem in Hsel as [e' [He' Hid]].
    assert (e' = e).
    { apply (NoDup_map_inj id (employees st)); auto.
      eapply filteredEmployees_subset; eauto. }
    subst e'. contradiction.
Qed.

(** Two employees with distinct ids, one of them hidden by the search. *)
Lemma select_all_filtered_witness :
  let asha := mkEmployee 1 "Asha" None None None in
  let ravi := mkEmployee 2 "Ravi" None None None in
  let st := mkState [asha; ravi] "rav" "" ∅ false false false "2024-05-01" in
  id asha ∉ selectedEmployees (handleSelectAll true st).
Proof.
  cbv zeta.
  destruct (select_all_filtered
              (mkState [mkEmployee 1 "Asha" None None None;
                        mkEmployee 2 "Ravi" None None None]
                       "rav" "" ∅ false false false "2024-05-01"))
    as (_ & _ & _ & Hhidden).
  apply Hhidden.
  - simpl. constructor; [|constructor; [|constructor]]; simpl.
    + intros [H|[]]. discriminate.
    + intros [].
  - simpl. left. reflexivity.
  - vm_compute. intros [H|[]]. discriminate.
Defined.

(** With a search text, select-all picks the visible employee only, whatever
    was selected before. *)
Example select_all_visible_only :
  let asha := mkEmployee 1 "Asha" None None None in
  let ravi := mkEmployee 2 "Ravi" None None None in
  let st := mkState [asha; ravi] "rav" "" {[1; 2]} false false false
                    "2024-05-01" in
  selectedEmployees (handleSelectAll true st) = {[2]}.
Proof. vm_compute. reflexivity. Qed.

(** A toggle flips the membership of one id and of no other. *)
Lemma handleEmployeeSelect_flip (employeeId : Z) (st : State) (i : Z) :
  i ∈ selectedEmployees (handleEmployeeSelect employeeId st) <->
  (i = employeeId /\ employeeId ∉ selectedEmployees st) \/
  (i <> employeeId /\ i ∈ selectedEmployees st).
Proof.
  unfold handleEmployeeSelect. simpl.
  destruct (decide (employeeId ∈ selectedEmployees st)) as [Hin|Hout].
  - rewrite elem_of_difference, elem_of_singleton.
    split; [intros [? ?]; right; tauto | intros [[-> ?]|[? ?]]; tauto].
  - rewrite elem_of_union, elem_of_singleton.
    destruct (decide (i = employeeId)) as [->|Hne]; [tauto|].
    split; [intros [?|?]; [tauto|contradiction] | tauto].
Qed.

End SelectionFacts.

(** ** Optimistic update and rollback *)

Section RollbackFacts.

Import Bulk.

(** The snapshot taken by a submission is the collection before the
    optimistic update. *)
Lemma snapshot_is_pre_submission (today : string) (st st1 : State)
    (effs : list Effect) (p : Pending) :
  markBulkAttendance_start today st = (st1, effs, Some p) ->
  prevEmployees p = employees st /\
  employees st1
  = optimistic (selectedEmployees st) (selectedStatus st) (employees st) /\
  selectedEmployees st1 = selectedEmployees st.
Proof.
  unfold markBulkAttendance_start.
  destruct (String.eqb (selectedStatus st) ""); [discriminate|].
  destruct (size (selectedEmployees st) =? 0)%nat; [discriminate|].
  destruct (negb (isDateValid today st)); [discriminate|].
  intros H. inversion H; subst. repeat split.
Qed.

(** A response that is not ok restores the snapshot, keeps the selection and
    ends the submission, whatever happened to the page in between. *)
Lemma settle_not_ok_restores (p : Pending) (body : ErrorBody) (st : State) :
  let st' := fst (markBulkAttendance_settle p (ResponseNotOk body) st) in
  employees st' = prevEmployees p /\
  selectedEmployees st' = selectedEmployees st /\
  isMarking st' = false.
Proof. repeat split. Qed.

(** A rejected [fetch] keeps the selection and ends the submission, and it
    leaves the employee collection as it finds it. *)
Lemma settle_rejected_keeps (p : Pending) (errorMessage : string) (st : State) :
  let st' := fst (markBulkAttendance_settle p (FetchRejected errorMessage) st) in
  employees st' = employees st /\
  selectedEmployees st' = selectedEmployees st /\
  isMarking st' = false.
Proof. repeat split. Qed.

(** A successful response clears the selection and keeps the optimistic
    state. *)
Lemma settle_ok_commits (p : Pending) (st : State) :
  let st' := fst (markBulkAttendance_settle p ResponseOk st) in
  employees st' = employees st /\
  selectedEmployees st' = ∅ /\
  isMarking st' = false.
Proof. repeat split. Qed.

(** Rollback after a server rejection: the collection is the pre-submission
    one and the selection is untouched. *)
Lemma rollback_on_server_rejection (today : string) (st : State) (body : ErrorBody) :
  let st' := fst (markBulkAttendance today (ResponseNotOk body) st) in
  selectedStatus st <> "" -> selectedEmployees st <> ∅ ->
  String.ltb today (selectedDate st) = false ->
  employees st' = employees st /\
  selectedEmployees st' = selectedEmployees st.
Proof.
  cbv zeta. intros Hstatus Hsel Hdate. unfold markBulkAttendance.
  rewrite markBulkAttendance_start_valid by assumption.
  split; reflexivity.
Qed.

(** After a network failure the optimistic marks stay in the collection. *)
Lemma no_rollback_on_network_failure (today : string) (st : State)
    (errorMessage : string) :
  let st' := fst (markBulkAttendance today (FetchRejected errorMessage) st) in
  selectedStatus st <> "" -> selectedEmployees st <> ∅ ->
  String.ltb today (selectedDate st) = false ->
  employees st'
  = optimistic (selectedEmployees st) (selectedStatus st) (employees st) /\
  selectedEmployees st' = selectedEmployees st.
Proof.
  cbv zeta. intros Hstatus Hsel Hdate. unfold markBulkAttendance.
  rewrite markBulkAttendance_start_valid by assumption.
  split; reflexivity.
Qed.

(** C1 on a concrete page: three employees are selected and marked present.
    When the server answers 500 the collection is the snapshot again and the
    selection is unchanged; when the request fails on the network the
    selection is unchanged too, and the three employees keep the status that
    was never saved. *)
Theorem network_failure_leaves_optimistic_marks :
  let e1 := mkEmployee 1 "Asha" None None None in
  let e2 := mkEmployee 2 "Ravi" None None None in
  let e3 := mkEmployee 3 "Mina" None None None in
  let st := mkState [e1; e2; e3] "" "present" {[1; 2; 3]} false false false
                    "2024-05-01" in
  let rejected :=
    fst (markBulkAttendance "2024-05-01" (ResponseNotOk (Parsed None)) st) in
  let failed :=
    fst (markBulkAttendance "2024-05-01" (FetchRejected "Failed to fetch") st) in
  employees rejected = [e1; e2; e3] /\
  selectedEmployees rejected = {[1; 2; 3]} /\
  selectedEmployees failed = {[1; 2; 3]} /\
  employees failed
  = [withLastStatus "present" e1; withLastStatus "present" e2;
     withLastStatus "present" e3] /\
  employees failed <> employees st.
Proof.
  cbv zeta. repeat split; try (vm_compute; reflexivity).
  vm_compute. discriminate.
Qed.

End RollbackFacts.

(** ** One submission at a time *)

Section InFlightFacts.

Import Bulk.

Lemma markButtonDisabled_while_marking (today : string) (st : State) :
  isMarking st = true -> markButtonDisabled today st = true.
Proof.
  intros H. unfold markButtonDisabled. rewrite H.
  now rewrite orb_true_r.
Qed.

Lemma markBulkAttendance_start_isMarking (today : string) (st st' : State)
    (effs : list Effect) (r : option Pending) :
  markBulkAttendance_start today st = (st', effs, r) ->
  match r with
  | Some _ => isMarking st' = true
  | None => isMarking st' = isMarking st
  end.
Proof.
  unfold markBulkAttendance_start.
  destruct (String.eqb (selectedStatus st) "");
    [intros H; inversion H; reflexivity|].
  destruct (size (selectedEmployees st) =? 0)%nat;
    [intros H; inversion H; reflexivity|].
  destruct (negb (isDateValid today st));
    intros H; inversion H; reflexivity.
Qed.

Lemma markBulkAttendance_settle_isMarking (p : Pending) (o : Outcome) (st : State) :
  isMarking (fst (markBulkAttendance_settle p o st)) = false.
Proof. destruct o; reflexivity. Qed.

Lemma handleDateChange_isMarking (today value : string) (st : State) :
  isMarking (fst (handleDateChange today value st)) = isMarking st.
Proof.
  unfold handleDateChange. now destruct (String.ltb today value).
Qed.

(** Without a remount no request is ever orphaned. *)
Lemma run_no_remount_no_orphans (today : string) (evs : list Event) (pg : Page) :
  existsb (fun ev => match ev with Remount => true | _ => false end) evs
  = false ->
  orphaned pg = [] ->
  orphaned (run today evs pg) = [].
Proof.
  revert pg. induction evs as [|ev evs IH]; intros pg Hsame Hnone;
    [exact Hnone|].
  simpl in Hsame. apply orb_false_iff in Hsame as [Hev Hsame].
  simpl. apply IH; [exact Hsame|].
  destruct ev; simpl; try exact Hnone; try discriminate.
  - destruct (markButtonDisabled today (view pg)); [exact Hnone|].
    destruct (markBulkAttendance_start today (view pg)) as [[st' effs] [p|]];
      exact Hnone.
  - destruct (inFlight pg); exact Hnone.
  - now rewrite Hnone.
Qed.

Lemma step_quiet (today : string) (ev : Event) (pg : Page) :
  quiet pg -> quiet (step today ev pg).
Proof.
  intros [Hidle Hone]. unfold quiet.
  destruct ev as [v|v|v|i|c| |o|d| | |o]; simpl; try (split; assumption).
  - rewrite handleDateChange_isMarking. split; assumption.
  - destruct c; simpl; split; assumption.
  - destruct (markButtonDisabled today (view pg)) eqn:Hdis;
      [split; assumption|].
    assert (Hmark : isMarking (view pg) = false).
    { destruct (isMarking (view pg)) eqn:E; [|reflexivity].
      rewrite markButtonDisabled_while_marking in Hdis by exact E.
      discriminate. }
    destruct (markBulkAttendance_start today (view pg)) as [[st' effs] r] eqn:Es.
    apply markBulkAttendance_start_isMarking in Es.
    rewrite (Hidle Hmark).
    destruct r as [p|]; simpl; split; auto; congruence.
  - destruct (inFlight pg) as [|p rest] eqn:E.
    + rewrite E. split; [reflexivity | simpl; lia].
    + destruct rest; [|simpl in Hone; lia].
      simpl. split; [reflexivity | lia].
  - split; [reflexivity | lia].
Qed.

Lemma run_quiet (today : string) (evs : list Event) (pg : Page) :
  quiet pg -> quiet (run today evs pg).
Proof.
  revert pg. induction evs as [|ev evs IH]; intros pg Hq; [exact Hq|].
  simpl. apply IH. now apply step_quiet.
Qed.

(** Leaving the page while a request is in flight and coming back: the
    first request is still pending, the button is enabled again, and a
    second request goes out through it. *)
Lemma remount_allows_second_request :
  let e1 := mkEmployee 1 "Asha" None None None in
  let submit := [RosterLoaded [e1]; EmployeeToggle 1; StatusInput "present";
                 MarkClick] in
  let pg := run "2024-05-01" (submit ++ [Remount] ++ submit)
                (initialPage "2024-05-01") in
  length (orphaned pg) = 1%nat /\ length (inFlight pg) = 1%nat /\
  length (pending pg) = 2%nat.
Proof. cbv zeta. repeat split; vm_compute; reflexivity. Qed.

(** C2, as the code has it: the handler does not look at [isMarking]; the
    gate is the button, which is disabled while a submission is in flight,
    so a click then does nothing, and over any sequence of events, leaving
    and re-entering the page included, the component as it is mounted has at
    most one bulk-mark request of its own in flight.  The flag does not
    outlive the mount and no request is aborted: after a remount a second
    request can be pending together with the first. *)
Theorem one_submission_through_button (today : string) :
  (forall st, isMarking st = true -> markButtonDisabled today st = true) /\
  (forall pg, isMarking (view pg) = true -> step today MarkClick pg = pg) /\
  (forall evs,
     (length (inFlight (run today evs (initialPage today))) <= 1)%nat) /\
  (forall evs,
     existsb (fun ev => match ev with Remount => true | _ => false end) evs
     = false ->
     (length (pending (run today evs (initialPage today))) <= 1)%nat) /\
  (exists evs,
     length (pending (run "2024-05-01" evs (initialPage "2024-05-01")))
     = 2%nat).
Proof.
  split; [|split; [|split; [|split]]].
  - intros st. apply markButtonDisabled_while_marking.
  - intros pg H. simpl.
    now rewrite markButtonDisabled_while_marking.
  - intros evs.
    apply (run_quiet today evs (initialPage today)).
    split; [reflexivity | simpl; lia].
  - intros evs Hsame.
    assert (Hnone : orphaned (run today evs (initialPage today)) = []).
    { apply run_no_remount_no_orphans; [exact Hsame | reflexivity]. }
    unfold pending. rewrite Hnone. simpl.
    apply (run_quiet today evs (initialPage today)).
    split; [reflexivity | simpl; lia].
  - eexists. apply remount_allows_second_request.
Qed.

(** A page with a submission in flight: the button is disabled and a click
    changes nothing. *)
Lemma one_submission_through_button_witness :
  let e1 := mkEmployee 1 "Asha" None None None in
  let submitting := mkState [e1] "" "present" {[1]} false true false
                            "2024-05-01" in
  let pg := mkPage submitting [mkPending [e1] [1] "present"] [] in
  markButtonDisabled "2024-05-01" submitting = true /\
  step "2024-05-01" MarkClick pg = pg /\
  (length (pending (run "2024-05-01" [MarkClick; MarkClick]
                        (initialPage "2024-05-01"))) <= 1)%nat.
Proof.
  cbv zeta. destruct (one_submission_through_button "2024-05-01")
    as (Hdisabled & Hclick & _ & Hmount & _).
  split; [|split].
  - apply Hdisabled. reflexivity.
  - apply Hclick. reflexivity.
  - apply Hmount. reflexivity.
Defined.

(** C2, the claim as stated fails: called while a submission is in flight,
    the handler sends a second request instead of rejecting the call. *)
Lemma second_submit_not_rejected :
  let e1 := mkEmployee 1 "Asha" None None None in
  let submitting := mkState [e1] "" "present" {[1]} false true false
                            "2024-05-01" in
  isMarking submitting = true /\
  snd (fst (markBulkAttendance_start "2024-05-01" submitting))
  = [PostBulkMark (mkMarkRequest [1] "present" "2024-05-01")] /\
  snd (markBulkAttendance_start "2024-05-01" submitting)
  = Some (mkPending [e1] [1] "present").
Proof. cbv zeta. repeat split; vm_compute; reflexivity. Qed.

(** A run through the button: the second click, made while the first
    request is in flight, is ignored. *)
Example double_click :
  let e1 := mkEmployee 1 "Asha" None None None in
  let evs := [RosterLoaded [e1]; EmployeeToggle 1; StatusInput "present";
              MarkClick; MarkClick] in
  inFlight (run "2024-05-01" evs (initialPage "2024-05-01"))
  = [mkPending [e1] [1] "present"].
Proof. vm_compute. reflexivity. Qed.

End InFlightFacts.

(** * Further properties of the dashboard *)

Section DashboardMoreFacts.

Import JsString Dashboard DashboardView.

Lemma filter_all {B : Type} (f : B -> bool) (l : list B) :
  Forall (fun x => f x = true) l -> List.filter f l = l.
Proof.
  induction 1 as [|x l Hx _ IH]; simpl; [reflexivity|].
  now rewrite Hx, IH.
Qed.

Lemma filter_twice {B : Type} (f : B -> bool) (l : list B) :
  List.filter f (List.filter f l) = List.filter f l.
Proof.
  apply filter_all. apply List.Forall_forall.
  intros x Hx. now apply filter_In in Hx.
Qed.

(** Filtering an already filtered view with the same search text and status
    changes nothing. *)
Theorem filteredData_idempotent (data : list AttendanceRecord)
    (searchTerm statusFilter : string) :
  filteredData (filteredData data searchTerm statusFilter)
               searchTerm statusFilter
  = filteredData data searchTerm statusFilter.
Proof.
  unfold filteredData. cbv zeta.
  destruct (negb (String.eqb searchTerm "")),
           (negb (String.eqb statusFilter "all")); try reflexivity.
  - rewrite (filter_all (searchMatch _)).
    + apply filter_twice.
    + apply List.Forall_forall. intros x Hx.
      apply filter_In in Hx as [Hx _]. now apply filter_In in Hx.
  - apply filter_twice.
  - apply filter_twice.
Qed.

Lemma includes_empty (s : string) : includes s "" = true.
Proof. destruct s; reflexivity. Qed.

(** An empty search text hides nothing, in any of the three lists. *)
Theorem empty_search_shows_all :
  (forall data : list AttendanceRecord, filteredData data "" "all" = data) /\
  (forall emps : list Employee, Bulk.filteredEmployees emps "" = emps) /\
  (forall emps : list Employee, AttendancePage.filteredEmployees emps "" = emps).
Proof.
  split; [reflexivity|]. split; [reflexivity|].
  intros emps. unfold AttendancePage.filteredEmployees. apply filter_all.
  apply List.Forall_forall. intros e _. simpl.
  now rewrite includes_empty.
Qed.

Lemma count_in_uniform (f v : string) (l : list AttendanceRecord) :
  Forall (fun item => status item = f) l ->
  length (List.filter (fun item => String.eqb (status item) v) l)
  = if String.eqb f v then length l else 0%nat.
Proof.
  induction 1 as [|x l Hx _ IH]; simpl.
  - now destruct (String.eqb f v).
  - rewrite Hx. destruct (String.eqb f v); simpl; now rewrite IH.
Qed.

Lemma filteredData_status (data : list AttendanceRecord)
    (searchTerm statusFilter : string) :
  statusFilter <> "all" ->
  Forall (fun item => status item = statusFilter)
         (filteredData data searchTerm statusFilter).
Proof.
  intros Hne. unfold filteredData. cbv zeta.
  destruct (String.eqb_spec statusFilter "all") as [?|_]; [contradiction|].
  simpl. apply List.Forall_forall. intros x Hx.
  apply filter_In in Hx as [_ Hx]. now apply String.eqb_eq.
Qed.

(** Under a status filter other than "all" the summary of the view puts
    every record under that status: the matching count equals the total and
    the other counts are zero. *)
Theorem summary_under_status_filter (data : list AttendanceRecord)
    (searchTerm statusFilter : string) :
  statusFilter <> "all" ->
  let s := calculateSummary (filteredData data searchTerm statusFilter) in
  present s = (if String.eqb statusFilter "present" then total s else 0%nat) /\
  absent s = (if String.eqb statusFilter "absent" then total s else 0%nat) /\
  halfDay s = (if String.eqb statusFilter "half-day" then total s else 0%nat).
Proof.
  intros Hne. cbv zeta. unfold calculateSummary. simpl.
  pose proof (filteredData_status data searchTerm statusFilter Hne) as Hall.
  repeat split; now apply count_in_uniform.
Qed.

Lemma summary_under_status_filter_witness :
  let rec n s := mkAttendanceRecord n "A" s "2024-05-01" "N/A" "N/A" None in
  let data := [rec 1 "present"; rec 2 "absent"; rec 3 "present"] in
  "present" <> "all" /\
  present (calculateSummary (filteredData data "" "present")) = 2%nat /\
  absent (calculateSummary (filteredData data "" "present")) = 0%nat.
Proof.
  cbv zeta. split; [discriminate|].
  destruct (summary_under_status_filter
              [mkAttendanceRecord 1 "A" "present" "2024-05-01" "N/A" "N/A" None;
               mkAttendanceRecord 2 "A" "absent" "2024-05-01" "N/A" "N/A" None;
               mkAttendanceRecord 3 "A" "present" "2024-05-01" "N/A" "N/A" None]
              "" "present") as (Hp & Ha & _); [discriminate|].
  split; [exact Hp | exact Ha].
Defined.

End DashboardMoreFacts.

Section DashboardStatusFacts.

Import JsString Dashboard DashboardView.

Lemma toLowerChar_idempotent (c : ascii) :
  toLowerChar (toLowerChar c) = toLowerChar c.
Proof.
  rewrite <- (ascii_nat_embedding c).
  pose proof (nat_ascii_bounded c) as Hn.
  revert Hn. generalize (nat_of_ascii c). intros n Hn.
  do 256 (destruct n as [|n]; [vm_compute; reflexivity|]). lia.
Qed.

Lemma toLowerCase_idempotent (s : string) :
  toLowerCase (toLowerCase s) = toLowerCase s.
Proof.
  induction s as [|c s IH]; simpl; [reflexivity|].
  now rewrite toLowerChar_idempotent, IH.
Qed.

Lemma toLowerChar_toUpperChar (c : ascii) :
  toLowerChar (toUpperChar c) = toLowerChar c.
Proof.
  rewrite <- (ascii_nat_embedding c).
  pose proof (nat_ascii_bounded c) as Hn.
  revert Hn. generalize (nat_of_ascii c). intros n Hn.
  do 256 (destruct n as [|n]; [vm_compute; reflexivity|]). lia.
Qed.

Lemma toLowerCase_capitalize (s : string) :
  toLowerCase (capitalize s) = toLowerCase s.
Proof.
  destruct s as [|c s]; simpl; [reflexivity|].
  now rewrite toLowerChar_toUpperChar.
Qed.

Lemma toLowerCase_nonempty (s : string) : s <> "" -> toLowerCase s <> "".
Proof. destruct s; [congruence | discriminate]. Qed.

Lemma rawStatus_nonempty (item : RawEntry) : rawStatus item <> "".
Proof.
  unfold rawStatus. repeat apply or_else_nonempty. discriminate.
Qed.

Lemma processEntry_status_lower (nowISO : string) (item : RawEntry) :
  toLowerCase (status (processEntry nowISO item))
  = status (processEntry nowISO item).
Proof.
  simpl.
  destruct (String.eqb (toLowerCase (rawStatus item)) "halfday");
    [reflexivity | apply toLowerCase_idempotent].
Qed.

(** Whatever the raw entry, the normalised status is in lower case, is not
    empty and is never the token 'halfday'. *)
Theorem processed_status_normal_form (nowISO : string) (item : RawEntry) :
  let s := status (processEntry nowISO item) in
  toLowerCase s = s /\ s <> "" /\ s <> "halfday".
Proof.
  cbv zeta. split; [apply processEntry_status_lower|]. simpl.
  destruct (String.eqb_spec (toLowerCase (rawStatus item)) "halfday") as [E|E].
  - split; discriminate.
  - split; [apply toLowerCase_nonempty, rawStatus_nonempty | exact E].
Qed.

(** The reduce of the chart counts what the filters of the summary count. *)
Lemma statusCounts_count (l : list AttendanceRecord) (acc : gmap string nat)
    (k : string) :
  default 0%nat
    (fold_left
       (fun acc item =>
          <[status item := (default 0%nat (acc !! status item) + 1)%nat]> acc)
       l acc !! k)
  = (default 0%nat (acc !! k)
     + count_occ string_dec (List.map status l) k)%nat.
Proof.
  revert acc. induction l as [|r l IH]; intros acc; simpl; [lia|].
  rewrite IH. destruct (string_dec (status r) k) as [->|Hne].
  - rewrite lookup_insert_eq. simpl. lia.
  - rewrite lookup_insert_ne by exact Hne. reflexivity.
Qed.

(** The three values drawn in the pie chart are the three counts of the
    summary cards of the same view. *)
Theorem chart_agrees_with_summary (filteredData : list AttendanceRecord) :
  chartValue filteredData "present" = present (calculateSummary filteredData) /\
  chartValue filteredData "absent" = absent (calculateSummary filteredData) /\
  chartValue filteredData "half-day" = halfDay (calculateSummary filteredData).
Proof.
  unfold chartValue, statusCounts, calculateSummary. simpl.
  rewrite !statusCounts_count, !filter_status_count, lookup_empty.
  repeat split.
Qed.

(** In the PDF the status is capitalised, and the colours of the status cell
    still follow the normalised status of the record: blue for 'present',
    red for 'absent', amber when it contains 'half', none otherwise.  Cells
    of other columns get no colour. *)
Theorem pdf_status_colours (toLocaleTimeString : string -> string)
    (nowISO : string) (item : RawEntry) :
  let r := processEntry nowISO item in
  didParseCell 4 (pdf_status (pdfRow toLocaleTimeString r))
  = (if String.eqb (status r) "present"
     then Some ([224; 242; 254], [3; 105; 161])
     else if String.eqb (status r) "absent"
     then Some ([254; 226; 226], [185; 28; 28])
     else if includes (status r) "half"
     then Some ([254; 243; 199], [146; 64; 14])
     else None) /\
  (forall column raw, column <> 4 -> didParseCell column raw = None).
Proof.
  cbv zeta.
  assert (Hmain :
    didParseCell 4
      (pdf_status (pdfRow toLocaleTimeString (processEntry nowISO item)))
    = (if String.eqb (status (processEntry nowISO item)) "present"
       then Some ([224; 242; 254], [3; 105; 161])
       else if String.eqb (status (processEntry nowISO item)) "absent"
       then Some ([254; 226; 226], [185; 28; 28])
       else if includes (status (processEntry nowISO item)) "half"
       then Some ([254; 243; 199], [146; 64; 14])
       else None)).
  { pose proof (processEntry_status_lower nowISO item) as Hlow.
    unfold didParseCell, pdfRow. cbn [pdf_status].
    change (4 =? 4) with true. cbv iota.
    now rewrite toLowerCase_capitalize, Hlow. }
  split; [exact Hmain|].
  intros column raw Hne. unfold didParseCell.
  now destruct (Z.eqb_spec column 4).
Qed.

End DashboardStatusFacts.

(** * The CSV export *)

Section CsvFacts.

Import JsString Dashboard DashboardView.

Lemma doubleQuotes_injective (a b : string) :
  doubleQuotes a = doubleQuotes b -> a = b.
Proof.
  revert b. induction a as [|c a IH]; intros [|d b]; simpl.
  - reflexivity.
  - destruct (Ascii.eqb d dquote); discriminate.
  - destruct (Ascii.eqb c dquote); discriminate.
  - destruct (Ascii.eqb_spec c dquote) as [->|Hc];
      destruct (Ascii.eqb_spec d dquote) as [->|Hd]; intros H.
    + inversion H as [H']. now rewrite (IH b H').
    + inversion H as [[Hq H']]. congruence.
    + inversion H as [[Hq H']]. congruence.
    + inversion H as [[Hq H']]. now rewrite (IH b H').
Qed.

Lemma append_char_injective (x y : string) (c : ascii) :
  x +:+ String c "" = y +:+ String c "" -> x = y.
Proof.
  revert y. induction x as [|a x IH]; intros [|b y]; simpl; intros H.
  - reflexivity.
  - inversion H as [[Hc Hy]]. destruct y; discriminate.
  - inversion H as [[Hc Hx]]. destruct x; discriminate.
  - inversion H as [[Hab Hxy]]. now rewrite (IH y Hxy).
Qed.

(** Quoting a field loses nothing: two fields with the same quoted form are
    the same field. *)
Theorem csvQuoted_injective (a b : string) :
  csvQuoted a = csvQuoted b -> a = b.
Proof.
  unfold csvQuoted. intros H. inversion H as [H'].
  now apply doubleQuotes_injective, (append_char_injective _ _ dquote).
Qed.

Lemma csvQuoted_injective_witness :
  csvQuoted "Asha" = csvQuoted "Asha" /\ "Asha" = "Asha".
Proof.
  split; [reflexivity | apply (csvQuoted_injective "Asha" "Asha"); reflexivity].
Defined.

Lemma occurrences_app (c : ascii) (s t : string) :
  occurrences c (s +:+ t) = (occurrences c s + occurrences c t)%nat.
Proof.
  induction s as [|d s IH]; simpl; [reflexivity|]. rewrite IH. lia.
Qed.

Lemma occurrences_doubleQuotes (c : ascii) (s : string) :
  c <> dquote -> occurrences c (doubleQuotes s) = occurrences c s.
Proof.
  intros Hc. induction s as [|d s IH]; [reflexivity|].
  cbn [doubleQuotes occurrences].
  destruct (Ascii.eqb_spec d dquote) as [->|Hd]; cbn [occurrences].
  - destruct (Ascii.eqb_spec dquote c) as [E|_]; [congruence|].
    now rewrite IH.
  - now rewrite IH.
Qed.

Lemma occurrences_csvQuoted (s : string) :
  occurrences newline (csvQuoted s) = occurrences newline s.
Proof.
  unfold csvQuoted. simpl. rewrite occurrences_app. simpl.
  rewrite occurrences_doubleQuotes by discriminate. lia.
Qed.

Lemma string_of_uint_no_newline (d : Decimal.uint) :
  occurrences newline (NilEmpty.string_of_uint d) = 0%nat.
Proof. induction d; simpl; auto. Qed.

Lemma Number_toString_no_newline (n : Z) :
  occurrences newline (Number_toString n) = 0%nat.
Proof.
  unfold Number_toString. destruct (Z.to_int n); simpl;
    apply string_of_uint_no_newline.
Qed.

Lemma join_no_occurrence (c : ascii) (sep : string) (l : list string) :
  occurrences c sep = 0%nat ->
  Forall (fun x => occurrences c x = 0%nat) l ->
  occurrences c (join sep l) = 0%nat.
Proof.
  intros Hsep. induction 1 as [|x l Hx Hl IH]; [reflexivity|].
  destruct l as [|y l]; [exact Hx|].
  change (join sep (x :: y :: l)) with (x +:+ sep +:+ join sep (y :: l)).
  rewrite !occurrences_app, Hx, Hsep, IH. reflexivity.
Qed.

Lemma join_lines (l : list string) :
  Forall (fun x => occurrences newline x = 0%nat) l ->
  occurrences newline (join (String newline "") l) = (length l - 1)%nat.
Proof.
  induction 1 as [|x l Hx Hl IH]; [reflexivity|].
  destruct l as [|y l]; [simpl; rewrite Hx; reflexivity|].
  change (join (String newline "") (x :: y :: l))
    with (x +:+ String newline "" +:+ join (String newline "") (y :: l)).
  rewrite !occurrences_app, Hx, IH. simpl. lia.
Qed.

Lemma splitLines_single (x : string) :
  occurrences newline x = 0%nat -> Lines.splitLines x = [x].
Proof.
  induction x as [|c x IH]; [reflexivity|].
  cbn [occurrences Lines.splitLines].
  destruct (Ascii.eqb c newline); [discriminate|].
  intros H. now rewrite IH.
Qed.

Lemma splitLines_cons (x rest : string) :
  occurrences newline x = 0%nat ->
  Lines.splitLines (x +:+ String newline rest) = x :: Lines.splitLines rest.
Proof.
  induction x as [|c x IH]; [reflexivity|].
  cbn [occurrences]. change (String c x +:+ String newline rest)
    with (String c (x +:+ String newline rest)).
  cbn [Lines.splitLines].
  destruct (Ascii.eqb c newline); [discriminate|].
  intros H. now rewrite IH.
Qed.

Lemma splitLines_join (l : list string) :
  l <> [] ->
  Forall (fun x => occurrences newline x = 0%nat) l ->
  Lines.splitLines (join (String newline "") l) = l.
Proof.
  intros Hne Hl. induction Hl as [|x l Hx Hl IH]; [congruence|].
  destruct l as [|y l]; [now apply splitLines_single|].
  change (join (String newline "") (x :: y :: l))
    with (x +:+ String newline (join (String newline "") (y :: l))).
  rewrite splitLines_cons by exact Hx.
  now rewrite IH.
Qed.

Lemma csvFields_no_newline (toLocaleTimeString : string -> string)
    (item : AttendanceRecord) :
  (forall t, occurrences newline (toLocaleTimeString t) = 0%nat) ->
  occurrences newline (employeeName item) = 0%nat /\
  occurrences newline (department item) = 0%nat /\
  occurrences newline (position item) = 0%nat /\
  occurrences newline (status item) = 0%nat ->
  occurrences newline (join "," (csvFields toLocaleTimeString item)) = 0%nat.
Proof.
  intros Hloc (Hn & Hd & Hp & Hs).
  apply join_no_occurrence; [reflexivity|].
  unfold csvFields. repeat constructor.
  - apply Number_toString_no_newline.
  - now rewrite occurrences_csvQuoted.
  - now rewrite occurrences_csvQuoted.
  - now rewrite occurrences_csvQuoted.
  - exact Hs.
  - unfold formatTime. destruct (lastCheckIn item) as [t|]; simpl;
      [destruct (String.eqb t ""); simpl; [reflexivity | apply Hloc]
      | reflexivity].
Qed.

(** When no name, department, position, status or formatted time contains a
    line feed, the lines of the exported text are exactly the header line
    followed by the line of each record, in the order of the view: the
    header comes first, there is no blank line and no line feed at the end,
    and for an empty view the text is the header alone.  The text then
    contains one line feed per record. *)
Theorem csv_one_line_per_record (toLocaleTimeString : string -> string)
    (filteredData : list AttendanceRecord) :
  (forall t, occurrences newline (toLocaleTimeString t) = 0%nat) ->
  Forall (fun item =>
            occurrences newline (employeeName item) = 0%nat /\
            occurrences newline (department item) = 0%nat /\
            occurrences newline (position item) = 0%nat /\
            occurrences newline (status item) = 0%nat) filteredData ->
  Lines.splitLines (csvContent toLocaleTimeString filteredData)
  = "Employee ID,Name,Department,Position,Status,Last Check-In"
    :: List.map (fun item => join "," (csvFields toLocaleTimeString item))
                filteredData /\
  csvContent toLocaleTimeString [] 
  = "Employee ID,Name,Department,Position,Status,Last Check-In" /\
  occurrences newline (csvContent toLocaleTimeString filteredData)
  = length filteredData.
Proof.
  intros Hloc Hdata.
  assert (Hlines :
    Forall (fun x => occurrences newline x = 0%nat)
           (join "," csvHeaders
            :: List.map
                 (fun item => join "," (csvFields toLocaleTimeString item))
                 filteredData)).
  { constructor; [reflexivity|].
    apply List.Forall_map. eapply Forall_impl; [exact Hdata|].
    intros item Hitem. cbv beta. now apply csvFields_no_newline. }
  unfold csvContent. split; [|split].
  - rewrite splitLines_join; [reflexivity | discriminate | exact Hlines].
  - reflexivity.
  - rewrite join_lines by exact Hlines. simpl. rewrite length_map. lia.
Qed.

Lemma csv_one_line_per_record_witness :
  let rec n name t :=
    mkAttendanceRecord n name "present" "2024-05-01" "Bakery" "Baker" t in
  let data := [rec 1 "Asha" None; rec 2 "Ravi" (Some "09:05")] in
  length (Lines.splitLines (csvContent (fun _ => "09:05 AM") data)) = 3%nat /\
  occurrences newline (csvContent (fun _ => "09:05 AM") data) = 2%nat.
Proof.
  cbv zeta.
  destruct (csv_one_line_per_record (fun _ => "09:05 AM")
           [mkAttendanceRecord 1 "Asha" "present" "2024-05-01" "Bakery" "Baker"
                               None;
            mkAttendanceRecord 2 "Ravi" "present" "2024-05-01" "Bakery" "Baker"
                               (Some "09:05")]) as (Hlines & _ & Hcount).
  - intros t. reflexivity.
  - repeat constructor.
  - split; [rewrite Hlines; reflexivity | exact Hcount].
Defined.

End CsvFacts.

(** * The pager of the attendance page *)

Section PagerFacts.

Import JsArray AttendancePage Pager.

Lemma paginate_take_drop {B : Type} (l : list B) (P k : Z) :
  0 < P -> 1 <= k ->
  paginate l P k = take (Z.to_nat P) (drop (Z.to_nat ((k - 1) * P)) l).
Proof.
  intros HP Hk. unfold paginate. cbv zeta.
  rewrite slice_nonneg by nia. f_equal; [|f_equal]; f_equal; lia.
Qed.

Lemma paginate_length {B : Type} (l : list B) (P k : Z) :
  0 < P -> 1 <= k ->
  Z.of_nat (length (paginate l P k))
  = Z.min P (Z.max 0 (Z.of_nat (length l) - (k - 1) * P)).
Proof.
  intros HP Hk. rewrite paginate_take_drop by assumption.
  rewrite length_take, length_drop. nia.
Qed.

Lemma paginate_in_range_nonempty {B : Type} (l : list B) (P k : Z) :
  0 < P -> 1 <= k -> k <= pageCount l P -> paginate l P k <> [].
Proof.
  intros HP Hk Hc Hnil.
  pose proof (paginate_length l P k HP Hk) as Hlen.
  rewrite Hnil in Hlen. simpl in Hlen.
  pose proof (ceil_div_bounds (Z.of_nat (length l)) P HP) as [Hlo _].
  fold (pageCount l P) in Hlo. nia.
Qed.

(** For a positive page size and a page number from 1 on: a page never
    holds more than [P] records, a page before the last one holds exactly
    [P], a page up to the last one is not empty, and a page after the last
    one is empty. *)
Theorem page_sizes {B : Type} (l : list B) (P k : Z) :
  0 < P -> 1 <= k ->
  Z.of_nat (length (paginate l P k)) <= P /\
  (k < pageCount l P -> Z.of_nat (length (paginate l P k)) = P) /\
  (k <= pageCount l P -> paginate l P k <> []) /\
  (pageCount l P < k -> paginate l P k = []).
Proof.
  intros HP Hk.
  pose proof (paginate_length l P k HP Hk) as Hlen.
  pose proof (ceil_div_bounds (Z.of_nat (length l)) P HP) as [Hlo Hhi].
  fold (pageCount l P) in Hlo, Hhi.
  split; [lia|]. split; [|split].
  - intros Hlt. nia.
  - now apply paginate_in_range_nonempty.
  - intros Hgt. apply length_zero_iff_nil. nia.
Qed.

Lemma page_sizes_witness :
  0 < 10 /\ 1 <= 3 /\
  Z.of_nat (length (paginate (seq 1 23) 10 3)) <= 10 /\
  paginate (seq 1 23) 10 3 <> [].
Proof.
  destruct (page_sizes (seq 1 23) 10 3) as (Hle & _ & Hne & _); [lia | lia |].
  split; [lia|]. split; [lia|]. split; [exact Hle|].
  apply Hne. vm_compute. discriminate.
Defined.

(** The page number is at least 1 and, unless it is 1, at most the page
    count of the current view. *)
Lemma step_keeps_page_in_range (ev : Event) (st : State) :
  1 <= currentPage st /\
  (currentPage st = 1 \/
   currentPage st <= pageCount (filtered st) employeesPerPage) ->
  1 <= currentPage (step ev st) /\
  (currentPage (step ev st) = 1 \/
   currentPage (step ev st)
   <= pageCount (filtered (step ev st)) employeesPerPage) /\
  employees (step ev st) = employees st.
Proof.
  intros [Hlo Hhi]. destruct ev as [value| |]; simpl.
  - split; [lia|]. split; [left; reflexivity | reflexivity].
  - destruct (pagerShown st && negb (prevDisabled st)) eqn:E;
      [|split; [lia|split; [exact Hhi | reflexivity]]].
    apply andb_true_iff in E as [_ E]. unfold prevDisabled in E.
    apply negb_true_iff, Z.eqb_neq in E. simpl.
    split; [lia|]. split; [|reflexivity].
    right. unfold filtered in *. simpl. lia.
  - destruct (pagerShown st && negb (nextDisabled st)) eqn:E;
      [|split; [lia|split; [exact Hhi | reflexivity]]].
    apply andb_true_iff in E as [_ E]. unfold nextDisabled in E.
    apply negb_true_iff in E. rewrite Z.geb_leb in E.
    apply Z.leb_gt in E. simpl.
    split; [lia|]. split; [|reflexivity].
    right. unfold filtered in *. simpl. lia.
Qed.

Lemma run_keeps_page_in_range (evs : list Event) (st : State) :
  1 <= currentPage st /\
  (currentPage st = 1 \/
   currentPage st <= pageCount (filtered st) employeesPerPage) ->
  1 <= currentPage (run evs st) /\
  (currentPage (run evs st) = 1 \/
   currentPage (run evs st)
   <= pageCount (filtered (run evs st)) employeesPerPage) /\
  employees (run evs st) = employees st.
Proof.
  revert st. induction evs as [|ev evs IH]; intros st Hst.
  - simpl. destruct Hst. repeat split; assumption.
  - simpl. destruct (step_keeps_page_in_range ev st Hst) as (H1 & H2 & H3).
    destruct (IH (step ev st) (conj H1 H2)) as (H4 & H5 & H6).
    repeat split; try assumption. congruence.
Qed.

(** Starting on page 1, whatever the user types in the search box and
    however often Prev and Next are clicked, the list shown is not empty as
    long as some employee matches the search: the pager never leads to an
    empty page. *)
Theorem pager_never_shows_empty_page (emps : list Employee)
    (search0 : string) (evs : list Event) :
  let st := run evs (mkState emps search0 1) in
  1 <= currentPage st /\
  (filtered st <> [] -> paginatedEmployees st <> []).
Proof.
  cbv zeta.
  destruct (run_keeps_page_in_range evs (mkState emps search0 1))
    as (Hlo & Hhi & _); [simpl; split; [lia | left; reflexivity]|].
  split; [exact Hlo|]. intros Hne.
  unfold paginatedEmployees. fold (filtered (run evs (mkState emps search0 1))).
  apply paginate_in_range_nonempty; [reflexivity | exact Hlo |].
  destruct Hhi as [E|Hle]; [|exact Hle].
  rewrite E.
  pose proof (ceil_div_bounds
                (Z.of_nat (length (filtered (run evs (mkState emps search0 1)))))
                employeesPerPage eq_refl) as [_ Hhi].
  fold (pageCount (filtered (run evs (mkState emps search0 1)))
                  employeesPerPage) in Hhi.
  destruct (filtered (run evs (mkState emps search0 1))); [congruence|].
  simpl length in Hhi. unfold employeesPerPage in *. lia.
Qed.

End PagerFacts.

(** * The abbreviated company name *)

Section AbbreviationFacts.

Import Pager DashboardView.

Lemma split_space_nonempty (s : string) : split_space s <> [].
Proof.
  destruct s as [|c s]; simpl; [discriminate|].
  destruct (Ascii.eqb c " "); [discriminate|].
  destruct (split_space s); discriminate.
Qed.

Lemma split_space_length (s : string) :
  length (split_space s) = S (spaces s).
Proof.
  induction s as [|c s IH]; [reflexivity|].
  cbn [split_space spaces].
  destruct (Ascii.eqb c " "); simpl; [now rewrite IH|].
  destruct (split_space s) as [|w ws]; simpl in *; [discriminate | exact IH].
Qed.

Lemma split_space_words (s : string) :
  Forall (fun w => spaces w = 0%nat) (split_space s).
Proof.
  induction s as [|c s IH]; [repeat constructor|].
  cbn [split_space].
  destruct (Ascii.eqb c " ") eqn:E; [constructor; [reflexivity | exact IH]|].
  destruct (split_space s) as [|w ws]; [repeat constructor; simpl; now rewrite E|].
  inversion IH; subst. constructor; [|assumption].
  simpl. now rewrite E.
Qed.

Lemma join_split_space (s : string) : join " " (split_space s) = s.
Proof.
  induction s as [|c s IH]; [reflexivity|].
  cbn [split_space].
  destruct (Ascii.eqb_spec c " ") as [->|Hc].
  - pose proof (split_space_nonempty s) as Hne.
    destruct (split_space s) as [|w ws]; [congruence|].
    change (join " " ("" :: w :: ws)) with ("" +:+ " " +:+ join " " (w :: ws)).
    now rewrite IH.
  - pose proof (split_space_nonempty s) as Hne.
    destruct (split_space s) as [|w ws]; [congruence|].
    destruct ws as [|w' ws]; simpl in *; now rewrite <- IH.
Qed.

(** A company name with at most one space is shown in full; a longer one is
    cut after its second word: the name is [w0 w1 rest] with no space inside
    [w0] and [w1], and the label is [w0 w1...]. *)
Theorem getAbbreviatedName_cases (COMPANY_NAME : string) :
  ((spaces COMPANY_NAME <= 1)%nat ->
   getAbbreviatedName COMPANY_NAME = COMPANY_NAME) /\
  ((2 <= spaces COMPANY_NAME)%nat ->
   exists w0 w1 rest : string,
     COMPANY_NAME = w0 +:+ " " +:+ w1 +:+ " " +:+ rest /\
     spaces w0 = 0%nat /\ spaces w1 = 0%nat /\
     getAbbreviatedName COMPANY_NAME = w0 +:+ " " +:+ w1 +:+ "...").
Proof.
  unfold getAbbreviatedName. cbv zeta.
  pose proof (split_space_length COMPANY_NAME) as Hlen.
  pose proof (split_space_words COMPANY_NAME) as Hwords.
  pose proof (join_split_space COMPANY_NAME) as Hjoin.
  split.
  - intros Hle.
    destruct (Nat.ltb_spec 2 (length (split_space COMPANY_NAME)));
      [lia | reflexivity].
  - intros Hge.
    destruct (Nat.ltb_spec 2 (length (split_space COMPANY_NAME))); [|lia].
    destruct (split_space COMPANY_NAME) as [|w0 [|w1 [|w2 ws]]];
      simpl in Hlen; try lia.
    inversion Hwords as [|? ? H0 Hrest]; subst.
    inversion Hrest as [|? ? H1 _]; subst.
    exists w0, w1, (join " " (w2 :: ws)).
    repeat split; assumption.
Qed.

Lemma getAbbreviatedName_cases_witness :
  (2 <= spaces "Sri Durga Devi Sweets & Bakery")%nat /\
  exists w0 w1 rest : string,
    "Sri Durga Devi Sweets & Bakery" = w0 +:+ " " +:+ w1 +:+ " " +:+ rest /\
    spaces w0 = 0%nat /\ spaces w1 = 0%nat /\
    getAbbreviatedName "Sri Durga Devi Sweets & Bakery"
    = w0 +:+ " " +:+ w1 +:+ "...".
Proof.
  split; [vm_compute; lia|].
  apply (getAbbreviatedName_cases "Sri Durga Devi Sweets & Bakery").
  vm_compute. lia.
Defined.

(** The default company name on a narrow screen. *)
Example abbreviated_default_name :
  getAbbreviatedName "Sri Durga Devi Sweets & Bakery" = "Sri Durga...".
Proof. reflexivity. Qed.

End AbbreviationFacts.

(** * Further properties of the bulk page *)

Section BulkMoreFacts.

Import JsString Bulk BulkView.

Lemma has_In (x : Z) (s : list Z) : JsSet.has x s = true <-> In x s.
Proof.
  unfold JsSet.has. rewrite existsb_exists. split.
  - intros [y [Hy E]]. apply Z.eqb_eq in E. now subst.
  - intros H. exists x. split; [exact H | apply Z.eqb_refl].
Qed.

Lemma delete_In (x i : Z) (s : list Z) :
  In i (JsSet.delete x s) <-> In i s /\ i <> x.
Proof.
  unfold JsSet.delete. rewrite filter_In, negb_true_iff, Z.eqb_neq.
  reflexivity.
Qed.

Lemma delete_absent (x : Z) (s : list Z) : ~ In x s -> JsSet.delete x s = s.
Proof.
  intros Hx. unfold JsSet.delete. apply filter_all.
  apply List.Forall_forall. intros y Hy.
  apply negb_true_iff, Z.eqb_neq. intros ->. contradiction.
Qed.

Lemma toggle_present (x : Z) (s : list Z) :
  In x s -> JsSet.toggle x s = JsSet.delete x s.
Proof.
  intros Hx. unfold JsSet.toggle. cbv zeta.
  now rewrite (proj2 (has_In x s) Hx).
Qed.

Lemma toggle_absent (x : Z) (s : list Z) :
  ~ In x s -> JsSet.toggle x s = s ++ [x].
Proof.
  intros Hx. unfold JsSet.toggle, JsSet.add. cbv zeta.
  destruct (JsSet.has x s) eqn:E; [apply has_In in E; contradiction|].
  reflexivity.
Qed.

(** Toggling the same employee twice, on the Set in insertion order.  The
    same ids are selected afterwards.  Ticking and then unticking an id
    that was not selected restores the order as well; unticking and then
    ticking an id that was selected moves it to the end of the Set, and
    with it to the end of the ids a submission sends.  The toggle of the
    page state is this toggle seen as a set of ids. *)
Theorem toggle_twice (employeeId : Z) (prev : list Z) :
  (forall i, In i (JsSet.toggle employeeId (JsSet.toggle employeeId prev))
             <-> In i prev) /\
  (~ In employeeId prev ->
   JsSet.toggle employeeId (JsSet.toggle employeeId prev) = prev) /\
  (In employeeId prev ->
   JsSet.toggle employeeId (JsSet.toggle employeeId prev)
   = JsSet.delete employeeId prev ++ [employeeId]) /\
  (List.NoDup prev -> List.NoDup (JsSet.toggle employeeId prev)) /\
  (forall st,
     selectedEmployees st = list_to_set prev ->
     selectedEmployees (handleEmployeeSelect employeeId st)
     = list_to_set (JsSet.toggle employeeId prev)).
Proof.
  assert (Hback : ~ In employeeId prev ->
    JsSet.toggle employeeId (JsSet.toggle employeeId prev) = prev).
  { intros Hx. rewrite (toggle_absent _ _ Hx).
    rewrite toggle_present by (apply in_or_app; right; left; reflexivity).
    unfold JsSet.delete. rewrite List.filter_app. simpl.
    rewrite Z.eqb_refl. simpl. rewrite app_nil_r.
    now apply delete_absent. }
  assert (Hmove : In employeeId prev ->
    JsSet.toggle employeeId (JsSet.toggle employeeId prev)
    = JsSet.delete employeeId prev ++ [employeeId]).
  { intros Hx. rewrite (toggle_present _ _ Hx).
    apply toggle_absent. rewrite delete_In. tauto. }
  split; [|split; [exact Hback|split; [exact Hmove|split]]].
  - intros i. destruct (in_dec Z.eq_dec employeeId prev) as [Hx|Hx].
    + rewrite (Hmove Hx), in_app_iff, delete_In. simpl.
      destruct (Z.eq_dec i employeeId) as [->|Hne]; [tauto|].
      split; [intros [[? _]|[?|[]]]; congruence || assumption | tauto].
    + now rewrite (Hback Hx).
  - intros Hnd. destruct (in_dec Z.eq_dec employeeId prev) as [Hx|Hx].
    + rewrite (toggle_present _ _ Hx). unfold JsSet.delete.
      now apply List.NoDup_filter.
    + rewrite (toggle_absent _ _ Hx). clear Hback Hmove.
      induction Hnd as [|y l Hy Hl IH]; simpl.
      * constructor; [intros [] | constructor].
      * constructor.
        -- rewrite in_app_iff. simpl. intros [H|[H|[]]]; [contradiction|].
           apply Hx. left. now symmetry.
        -- apply IH. intros H. apply Hx. now right.
  - intros st Hsel. unfold handleEmployeeSelect. simpl. rewrite Hsel.
    destruct (decide (employeeId ∈ (list_to_set prev : gset Z))) as [Hin|Hout].
    + apply elem_of_list_to_set, list_elem_of_In in Hin.
      rewrite (toggle_present _ _ Hin). apply set_eq. intros y.
      rewrite elem_of_difference, !elem_of_list_to_set, !list_elem_of_In,
        elem_of_singleton, delete_In. reflexivity.
    + rewrite elem_of_list_to_set, list_elem_of_In in Hout.
      rewrite (toggle_absent _ _ Hout). apply set_eq. intros y.
      rewrite elem_of_union, !elem_of_list_to_set, !list_elem_of_In,
        elem_of_singleton, in_app_iff. simpl.
      split; [intros [H|H]; [left; exact H | right; left; now symmetry]
             | intros [H|[H|[]]]; [left; exact H | right; now symmetry]].
Qed.

(** Asha (1), Ravi (2) and Mina (3) ticked in this order; Asha unticked and
    ticked again is sent last. *)
Lemma toggle_twice_witness :
  In 1 [1; 2; 3] /\ JsSet.toggle 1 (JsSet.toggle 1 [1; 2; 3]) = [2; 3; 1].
Proof.
  split; [left; reflexivity|].
  destruct (toggle_twice 1 [1; 2; 3]) as (_ & _ & Hmove & _).
  rewrite Hmove; [reflexivity | left; reflexivity].
Defined.

Lemma filter_map_commute {B : Type} (p : B -> bool) (g : B -> B) (l : list B) :
  (forall x, p (g x) = p x) ->
  List.filter p (List.map g l) = List.map g (List.filter p l).
Proof.
  intros Hp. induction l as [|x l IH]; simpl; [reflexivity|].
  rewrite Hp. destruct (p x); simpl; now rewrite IH.
Qed.

(** The optimistic update touches nothing but [lastStatus]: ids and names
    keep their values and their order, employees outside the selection are
    unchanged, and the update commutes with the search filter, so it never
    changes which rows are shown. *)
Theorem optimistic_preserves_view (selected : gset Z) (v : string)
    (prev : list Employee) (search : string) :
  List.map id (optimistic selected v prev) = List.map id prev /\
  List.map name (optimistic selected v prev) = List.map name prev /\
  List.filter (fun emp => bool_decide (id emp ∉ selected))
              (optimistic selected v prev)
  = List.filter (fun emp => bool_decide (id emp ∉ selected)) prev /\
  filteredEmployees (optimistic selected v prev) search
  = optimistic selected v (filteredEmployees prev search).
Proof.
  unfold optimistic. repeat split.
  - rewrite List.map_map. apply List.map_ext. intros e.
    now destruct (decide (id e ∈ selected)).
  - rewrite List.map_map. apply List.map_ext. intros e.
    now destruct (decide (id e ∈ selected)).
  - induction prev as [|e prev IH]; simpl; [reflexivity|].
    destruct (decide (id e ∈ selected)) as [Hin|Hout]; simpl.
    + rewrite !bool_decide_eq_false_2 by (intros H; now apply H).
      exact IH.
    + rewrite !bool_decide_eq_true_2 by exact Hout. now rewrite IH.
  - unfold filteredEmployees. destruct (String.eqb search ""); [reflexivity|].
    apply filter_map_commute. intros e.
    now destruct (decide (id e ∈ selected)).
Qed.

Lemma NoDup_map_filter {B C : Type} (f : B -> C) (p : B -> bool) (l : list B) :
  List.NoDup (List.map f l) -> List.NoDup (List.map f (List.filter p l)).
Proof.
  induction l as [|x l IH]; simpl; [auto|].
  intros Hnd. inversion Hnd as [|? ? Hx Hl]; subst.
  destruct (p x); simpl; [|auto].
  constructor; [|auto].
  intros Hin. apply Hx. apply in_map_iff in Hin as [y [Hy Hin]].
  apply filter_In in Hin as [Hin _]. rewrite <- Hy. now apply in_map.
Qed.

(** With distinct ids and at least one visible employee, ticking the
    select-all box leaves it rendered as ticked; unticking it leaves it
    rendered as unticked. *)
Theorem select_all_box_follows (st : State) :
  List.NoDup (List.map id (employees st)) ->
  filteredEmployees (employees st) (search st) <> [] ->
  selectAllChecked (handleSelectAll true st) = true /\
  selectAllChecked (handleSelectAll false st) = false.
Proof.
  intros Hnd Hne.
  unfold selectAllChecked, selectedCount, handleSelectAll.
  cbn [selectedEmployees set_selectedEmployees employees search].
  set (visible := filteredEmployees (employees st) (search st)) in *.
  assert (Hpos : (0 < length visible)%nat)
    by (destruct visible; [congruence | simpl; lia]).
  split.
  - rewrite size_list_to_set.
    + rewrite length_map, Nat.eqb_refl. simpl. now apply Nat.ltb_lt.
    + apply NoDup_ListNoDup. subst visible. unfold filteredEmployees.
      destruct (String.eqb (search st) ""); [exact Hnd|].
      now apply NoDup_map_filter.
  - rewrite size_empty.
    destruct (Nat.eqb_spec 0 (length visible)); [lia | reflexivity].
Qed.

Lemma select_all_box_follows_witness :
  let asha := mkEmployee 1 "Asha" None None None in
  let ravi := mkEmployee 2 "Ravi" None None None in
  let st := mkState [asha; ravi] "rav" "" ∅ false false false "2024-05-01" in
  selectAllChecked (handleSelectAll true st) = true /\
  selectAllChecked (handleSelectAll false st) = false.
Proof.
  cbv zeta.
  apply (select_all_box_follows
           (mkState [mkEmployee 1 "Asha" None None None;
                     mkEmployee 2 "Ravi" None None None]
                    "rav" "" ∅ false false false "2024-05-01")).
  - simpl. constructor; [|constructor; [|constructor]]; simpl.
    + intros [H|[]]. discriminate.
    + intros [].
  - vm_compute. discriminate.
Defined.

End BulkMoreFacts.

Section BulkDisplayFacts.

Import JsString Bulk BulkView.

Lemma statusCell_after_commit (st : State) (e : Employee) :
  selectedStatus st <> "" ->
  statusCell
    (set_isMarking false
       (set_selectedEmployees ∅
          (set_employees
             (optimistic (selectedEmployees st) (selectedStatus st)
                         (employees st))
             (set_isMarking true st))))
    (if decide (id e ∈ selectedEmployees st)
     then withLastStatus (selectedStatus st) e else e)
  = statusCell st e.
Proof.
  intros Hstatus. unfold statusCell. simpl.
  destruct (String.eqb_spec (selectedStatus st) "") as [?|_]; [contradiction|].
  simpl. rewrite bool_decide_eq_false_2 by apply not_elem_of_empty.
  destruct (decide (id e ∈ selectedEmployees st)) as [Hin|Hout].
  - rewrite (bool_decide_eq_true_2 _ Hin). simpl.
    now destruct (String.eqb_spec (selectedStatus st) "").
  - now rewrite (bool_decide_eq_false_2 _ Hout).
Qed.

(** When the server accepts a submission the selection is cleared and every
    row keeps the status text it showed while it was being submitted: the
    selected rows now show the submitted status from [lastStatus], the other
    rows show what they showed before. *)
Theorem commit_keeps_status_cells (today : string) (st : State) :
  selectedStatus st <> "" -> selectedEmployees st <> ∅ ->
  String.ltb today (selectedDate st) = false ->
  let st' := fst (markBulkAttendance today ResponseOk st) in
  selectedEmployees st' = ∅ /\
  isMarking st' = false /\
  List.map (statusCell st') (employees st')
  = List.map (statusCell st) (employees st).
Proof.
  intros Hstatus Hsel Hdate. cbv zeta. unfold markBulkAttendance.
  rewrite markBulkAttendance_start_valid by assumption.
  cbn [markBulkAttendance_settle fst].
  split; [reflexivity|]. split; [reflexivity|].
  cbn [employees set_isMarking set_selectedEmployees set_employees].
  unfold optimistic at 2. rewrite List.map_map.
  apply List.map_ext. intros e.
  now apply statusCell_after_commit.
Qed.

Lemma commit_keeps_status_cells_witness :
  let e1 := mkEmployee 1 "Asha" None None (Some "absent") in
  let e2 := mkEmployee 2 "Ravi" None None None in
  let st := mkState [e1; e2] "" "present" {[1]} false false false
                    "2024-05-01" in
  let st' := fst (markBulkAttendance "2024-05-01" ResponseOk st) in
  List.map (statusCell st') (employees st') = ["present"; "-"].
Proof.
  cbv zeta.
  destruct (commit_keeps_status_cells "2024-05-01"
              (mkState [mkEmployee 1 "Asha" None None (Some "absent");
                        mkEmployee 2 "Ravi" None None None]
                       "" "present" {[1]} false false false "2024-05-01"))
    as (_ & _ & Hcells).
  - discriminate.
  - simpl. intros H. apply (f_equal size) in H. vm_compute in H. discriminate.
  - reflexivity.
  - rewrite Hcells. vm_compute. reflexivity.
Defined.

(** After a load of the roster, whichever way it went (fresh cache entry,
    successful request, failed request), the spinner is off and the list
    shown is the cached roster whenever the cache holds one; a request is
    sent exactly when the cache had no fresh entry; and only a failed
    request with an empty cache leaves the list as it was. *)
Theorem load_shows_cached_roster (now : Z) (r : FetchResult) (cache : Cache)
    (st : State) :
  let cache' := fst (fst (fetchEmployees now r cache st)) in
  let st' := snd (fst (fetchEmployees now r cache st)) in
  let effs := snd (fetchEmployees now r cache st) in
  isLoading st' = false /\
  (forall d, data cache' = Some d -> employees st' = d) /\
  (data cache' = None -> employees st' = employees st /\ r = FetchFailed) /\
  (In GetEmployees effs <-> cacheGet cache now = None).
Proof.
  cbv zeta. unfold fetchEmployees, fetchEmployees_start.
  destruct (cacheGet cache now) as [d0|] eqn:Hget.
  - apply cacheGet_fresh in Hget as [Hdata _]. simpl.
    repeat split.
    + intros d Hd. congruence.
    + congruence.
    + congruence.
    + intros [].
    + discriminate.
  - destruct r as [d1|]; simpl.
    + repeat split; try congruence; try discriminate. left. reflexivity.
    + destruct (data cache) as [d2|] eqn:Hdata; simpl;
        repeat split; try congruence; try discriminate; left; reflexivity.
Qed.

(** Picking a date is always accepted into the field.  A date after today
    raises the warning and disables the Mark button, and a submission then
    sends nothing; any other date raises no warning and is valid. *)
Theorem date_change_gate (today newDate : string) (st : State) :
  let st' := fst (handleDateChange today newDate st) in
  let effs := snd (handleDateChange today newDate st) in
  selectedDate st' = newDate /\
  (String.ltb today newDate = true ->
   showDateWarning st' = true /\ effs <> [] /\
   markButtonDisabled today st' = true /\
   snd (markBulkAttendance_start today st') = None) /\
  (String.ltb today newDate = false ->
   effs = [] /\ isDateValid today st' = true /\
   showDateWarning st' = showDateWarning st).
Proof.
  cbv zeta. unfold handleDateChange.
  destruct (String.ltb today newDate) eqn:Hlt; simpl.
  - split; [reflexivity|]. split; [|discriminate]. intros _.
    split; [reflexivity|]. split; [discriminate|].
    assert (Hinvalid :
      isDateValid today (set_showDateWarning true (set_selectedDate newDate st))
      = false).
    { rewrite isDateValid_ltb. simpl. now rewrite Hlt. }
    split.
    + unfold markButtonDisabled. rewrite Hinvalid. simpl.
      now rewrite !orb_true_r.
    + unfold markBulkAttendance_start.
      destruct (String.eqb _ ""); [reflexivity|].
      destruct (size _ =? 0)%nat; [reflexivity|].
      rewrite Hinvalid. reflexivity.
  - split; [reflexivity|]. split; [discriminate|]. intros _.
    split; [reflexivity|]. split; [|reflexivity].
    rewrite isDateValid_ltb. simpl. now rewrite Hlt.
Qed.

Lemma date_change_gate_witness :
  let e1 := mkEmployee 1 "Asha" None None None in
  let st := mkState [e1] "" "present" {[1]} false false false "2024-05-01" in
  let st' := fst (handleDateChange "2024-05-01" "2024-05-02" st) in
  String.ltb "2024-05-01" "2024-05-02" = true /\
  markButtonDisabled "2024-05-01" st' = true.
Proof.
  cbv zeta. split; [reflexivity|].
  destruct (date_change_gate "2024-05-01" "2024-05-02"
              (mkState [mkEmployee 1 "Asha" None None None] "" "present"
                       {[1]} false false false "2024-05-01"))
    as (_ & Hfuture & _).
  destruct Hfuture as (_ & _ & Hdisabled & _); [reflexivity|].
  exact Hdisabled.
Defined.

End BulkDisplayFacts.

(** * The retrying request of the add-employee form *)

Section RetryFacts.

Import JsString AddEmployee.

Context {D : Type}.

Implicit Types (attempt : Z -> Attempt D) (retries timeout i k : Z).

Lemma fetches_app (a b : list Effect) :
  fetches (a ++ b) = (fetches a + fetches b)%nat.
Proof. unfold fetches. now rewrite List.filter_app, length_app. Qed.

Lemma pauses_app (a b : list Effect) : pauses (a ++ b) = pauses a ++ pauses b.
Proof. unfold pauses. apply flat_map_app. Qed.

(** The loop from index [i] on when iteration [k] is the first to succeed. *)
Lemma retryLoop_first_success attempt retries timeout k (data : D)
    (fuel : nat) i (lastError : option JsError) :
  Z.of_nat fuel = retries - i -> 0 <= i -> i <= k -> k < retries ->
  (forall j, i <= j < k -> failed (attempt j)) ->
  attempt k = OkBody data ->
  fst (retryLoop attempt retries timeout fuel i lastError) = Returned data /\
  fetches (snd (retryLoop attempt retries timeout fuel i lastError))
  = Z.to_nat (k - i + 1) /\
  pauses (snd (retryLoop attempt retries timeout fuel i lastError))
  = List.map (fun j => 1000 * (j + 1)) (seqZ i (k - i)).
Proof.
  revert i lastError. induction fuel as [|fuel IH]; intros i lastError
    Hfuel Hi Hik Hk Hfail Hok; [lia|].
  destruct (Z.eq_dec i k) as [->|Hne].
  - cbn [retryLoop]. rewrite Hok. simpl.
    rewrite Z.sub_diag. repeat split.
  - assert (Hfi : failed (attempt i)) by (apply Hfail; lia).
    assert (Hlast : (i =? retries - 1) = false) by (apply Z.eqb_neq; lia).
    assert (Hwait : (i <? retries - 1) = true) by (apply Z.ltb_lt; lia).
    destruct (IH (i + 1) (Some (errorOf (attempt i))))
      as (Hr & Hf & Hp); try lia; try assumption.
    { intros j Hj. apply Hfail. lia. }
    cbn [retryLoop].
    destruct (attempt i) as [e|status message|d] eqn:Ea; [| |contradiction];
      rewrite Hlast, andb_false_r, Hwait;
      destruct (retryLoop attempt retries timeout fuel (i + 1) _)
        as [res effs]; simpl in *;
      (split; [exact Hr|]); unfold fetches, pauses in *; simpl;
      fold (fetches effs); fold (pauses effs);
      (split; [unfold fetches; rewrite Hf; lia|]);
      unfold pauses; rewrite Hp;
      rewrite (seqZ_cons i (k - i)) by lia; simpl;
      repeat f_equal; lia.
Qed.

(** The loop from index [i] on when every remaining attempt fails. *)
Lemma retryLoop_all_fail attempt retries timeout (fuel : nat) i
    (lastError : option JsError) :
  Z.of_nat fuel = retries - i -> 0 <= i -> (0 < fuel)%nat ->
  (forall j, i <= j < retries -> failed (attempt j)) ->
  fst (retryLoop attempt retries timeout fuel i lastError)
  = Threw (Some (errorOf (attempt (retries - 1)))) /\
  fetches (snd (retryLoop attempt retries timeout fuel i lastError)) = fuel /\
  pauses (snd (retryLoop attempt retries timeout fuel i lastError))
  = List.map (fun j => 1000 * (j + 1)) (seqZ i (retries - 1 - i)).
Proof.
  revert i lastError. induction fuel as [|fuel IH]; intros i lastError
    Hfuel Hi Hpos Hfail; [lia|].
  assert (Hfi : failed (attempt i)) by (apply Hfail; lia).
  destruct fuel as [|fuel].
  - assert (Hi' : i = retries - 1) by lia.
    assert (Hlast : (i =? retries - 1) = true) by (apply Z.eqb_eq; lia).
    assert (Hwait : (i <? retries - 1) = false) by (apply Z.ltb_ge; lia).
    cbn [retryLoop].
    destruct (attempt i) as [e|status message|d] eqn:Ea; [| |contradiction];
      rewrite Hlast, Hwait, andb_true_r;
      rewrite <- Hi', Ea, (seqZ_nil i) by lia;
      destruct (negb _); simpl; repeat split.
  - assert (Hlast : (i =? retries - 1) = false) by (apply Z.eqb_neq; lia).
    assert (Hwait : (i <? retries - 1) = true) by (apply Z.ltb_lt; lia).
    destruct (IH (i + 1) (Some (errorOf (attempt i))))
      as (Hr & Hf & Hp); try lia.
    { intros j Hj. apply Hfail. lia. }
    remember (S fuel) as fuel1 eqn:Hfuel1.
    cbn [retryLoop].
    destruct (attempt i) as [e|status message|d] eqn:Ea; [| |contradiction];
      rewrite Hlast, andb_false_r, Hwait;
      destruct (retryLoop attempt retries timeout fuel1 (i + 1) _)
        as [res effs]; simpl in *;
      (split; [exact Hr|]); unfold fetches, pauses in *; simpl;
      (split; [rewrite Hf; reflexivity|]);
      rewrite Hp;
      rewrite (seqZ_cons i (retries - 1 - i)) by lia; simpl;
      repeat f_equal; lia.
Qed.

(** When attempt [k] is the first that succeeds, [fetchWithRetry] returns
    its body after exactly [k + 1] requests, having paused 1000 ms, 2000 ms,
    ... up to [1000 * k] ms between them; later attempts are never made. *)
Theorem fetchWithRetry_first_success attempt retries timeout k (data : D) :
  0 <= k < retries ->
  (forall j, 0 <= j < k -> failed (attempt j)) ->
  attempt k = OkBody data ->
  fst (fetchWithRetry attempt retries timeout) = Returned data /\
  fetches (snd (fetchWithRetry attempt retries timeout)) = Z.to_nat (k + 1) /\
  pauses (snd (fetchWithRetry attempt retries timeout))
  = List.map (fun j => 1000 * (j + 1)) (seqZ 0 k).
Proof.
  intros Hk Hfail Hok. unfold fetchWithRetry.
  destruct (retryLoop_first_success attempt retries timeout k data
              (Z.to_nat retries) 0 None) as (Hr & Hf & Hp);
    try lia; try assumption.
  rewrite Z.sub_0_r in Hf, Hp. repeat split; assumption.
Qed.

(** When every attempt fails, whatever the kind of failure (time-out,
    network error or an HTTP error status), [fetchWithRetry] makes exactly
    [retries] requests, pauses 1000 ms, 2000 ms, ... between them and none
    after the last, and throws the error of the last attempt.  With no
    attempt allowed it sends nothing and throws [undefined]. *)
Theorem fetchWithRetry_exhausted attempt retries timeout :
  (retries <= 0 ->
   fetchWithRetry attempt retries timeout = (Threw None, [])) /\
  (0 < retries ->
   (forall j, 0 <= j < retries -> failed (attempt j)) ->
   fst (fetchWithRetry attempt retries timeout)
   = Threw (Some (errorOf (attempt (retries - 1)))) /\
   fetches (snd (fetchWithRetry attempt retries timeout)) = Z.to_nat retries /\
   pauses (snd (fetchWithRetry attempt retries timeout))
   = List.map (fun j => 1000 * (j + 1)) (seqZ 0 (retries - 1))).
Proof.
  unfold fetchWithRetry. split.
  - intros Hle. replace (Z.to_nat retries) with 0%nat by lia. reflexivity.
  - intros Hpos Hfail.
    destruct (retryLoop_all_fail attempt retries timeout
                (Z.to_nat retries) 0 None) as (Hr & Hf & Hp);
      try lia; try assumption.
    rewrite Z.sub_0_r in Hp. repeat split; assumption.
Qed.

End RetryFacts.

Section AddEmployeeFacts.

Import JsString AddEmployee.

(** The default three attempts: a time-out, an HTTP 503, then a body. *)
Lemma fetchWithRetry_first_success_witness :
  let attempt := fun j : Z =>
    if j =? 0 then Thrown (mkJsError "AbortError" "The operation was aborted.")
    else if j =? 1 then NotOk 503 None
    else OkBody 42 in
  fst (fetchWithRetry attempt 3 8000) = Returned 42 /\
  fetches (snd (fetchWithRetry attempt 3 8000)) = 3%nat /\
  pauses (snd (fetchWithRetry attempt 3 8000)) = [1000; 2000].
Proof.
  cbv zeta.
  apply (fetchWithRetry_first_success
           (fun j : Z =>
              if j =? 0
              then Thrown (mkJsError "AbortError" "The operation was aborted.")
              else if j =? 1 then NotOk 503 None
              else OkBody 42) 3 8000 2 42).
  - lia.
  - intros j Hj. assert (j = 0 \/ j = 1) as [-> | ->] by lia; exact I.
  - reflexivity.
Defined.

(** The default three attempts, each answered with HTTP 409 and a message:
    the request is sent three times all the same. *)
Lemma fetchWithRetry_exhausted_witness :
  let attempt := fun _ : Z =>
    @NotOk Z 409 (Some "Employee already exists") in
  fst (fetchWithRetry attempt 3 8000)
  = Threw (Some (mkJsError "Error" "Employee already exists")) /\
  fetches (snd (fetchWithRetry attempt 3 8000)) = 3%nat /\
  pauses (snd (fetchWithRetry attempt 3 8000)) = [1000; 2000].
Proof.
  cbv zeta.
  destruct (fetchWithRetry_exhausted
              (fun _ : Z => @NotOk Z 409 (Some "Employee already exists"))
              3 8000) as [_ Hall].
  apply Hall; [lia | intros j _; exact I].
Defined.

(** The twelve-hour clock: for an hour of the day the number shown is
    between 1 and 12, midnight and noon are shown as 12, and the number
    together with AM or PM determines the hour. *)
Theorem clock_hours_round_trip (getHours : Z) :
  0 <= getHours < 24 ->
  1 <= clockHours getHours <= 12 /\
  (ampm getHours = "AM" <-> getHours < 12) /\
  (ampm getHours = "PM" <-> 12 <= getHours) /\
  getHours
  = Z.rem (clockHours getHours) 12
    + (if String.eqb (ampm getHours) "PM" then 12 else 0).
Proof.
  intros Hh.
  replace getHours with (Z.of_nat (Z.to_nat getHours)) by lia.
  assert (Hn : (Z.to_nat getHours < 24)%nat) by lia.
  revert Hn. generalize (Z.to_nat getHours). intros n Hn.
  do 24 (destruct n as [|n];
         [vm_compute; repeat split; intros; congruence|]).
  lia.
Qed.

Lemma clock_hours_round_trip_witness :
  0 <= 0 < 24 /\ clockHours 0 = 12 /\ ampm 0 = "AM".
Proof.
  destruct (clock_hours_round_trip 0) as (Hrange & Ham & _ & Hback); [lia|].
  split; [lia|]. split; [reflexivity|]. apply Ham. lia.
Defined.

End AddEmployeeFacts.

Section MoreExamples.

Import AttendancePage Pager.

(** Twenty-three employees and four clicks on Next: the fourth click finds
    the button disabled and the third page stays on screen. *)
Lemma pager_never_shows_empty_page_witness :
  let emps :=
    List.map (fun n => mkEmployee (Z.of_nat n) "Asha" None None None)
             (seq 1 23) in
  let st := run [NextClick; NextClick; NextClick; NextClick]
                (mkState emps "" 1) in
  currentPage st = 3 /\ paginatedEmployees st <> [].
Proof.
  cbv zeta. split; [vm_compute; reflexivity|].
  apply (pager_never_shows_empty_page
           (List.map (fun n => mkEmployee (Z.of_nat n) "Asha" None None None)
                     (seq 1 23))
           "" [NextClick; NextClick; NextClick; NextClick]).
  vm_compute. discriminate.
Defined.

End MoreExamples.
